(** * playlstr client: settings, account link, playlist dispatch and upload

    A shallow embedding of [client.py].  Python values are a small dynamic
    value type, every effect of the script (file system, console, random
    generator, HTTP requests, exceptions, [sys.exit]) is threaded through an
    explicit world by a state-and-exception monad, and the functions of the
    script are transcribed statement by statement. *)

From Stdlib Require Import String Ascii List ZArith Lia Bool.
From stdpp Require Import base option gmap strings.
Import ListNotations.
Open Scope string_scope.
#[local] Set Warnings "-register-all".

(** ** Python values *)

(** The values the script manipulates: what [json] produces and consumes, the
    entries of the argument dictionary and the settings object.  A [dict] is
    an association list in insertion order with distinct keys. *)
Inductive value : Type :=
| VNone : value
| VBool : bool -> value
| VInt : Z -> value
| VStr : string -> value
| VList : list value -> value
| VDict : list (string * value) -> value.

Abbreviation dict := (list (string * value)).

(** Truth value of an object, as tested by [if x:] and [not x]. *)
Definition truthy (v : value) : bool :=
  match v with
  | VNone => false
  | VBool b => b
  | VInt z => negb (z =? 0)%Z
  | VStr s => negb (String.eqb s EmptyString)
  | VList l => match l with [] => false | _ :: _ => true end
  | VDict d => match d with [] => false | _ :: _ => true end
  end.

(** [d.get(k)] on an association list: the value bound to [k], if any. *)
Fixpoint dict_get (d : dict) (k : string) : option value :=
  match d with
  | [] => None
  | (k', v) :: d' => if String.eqb k' k then Some v else dict_get d' k
  end.

(** [d[k] = v]: rebinds [k] in place when present, appends it otherwise. *)
Fixpoint dict_set (d : dict) (k : string) (v : value) : dict :=
  match d with
  | [] => [(k, v)]
  | (k', v') :: d' =>
      if String.eqb k' k then (k', v) :: d' else (k', v') :: dict_set d' k v
  end.

(** ** Strings *)

(** The double quote character, as a one-character string. *)
Definition dquote : string := String "034"%char EmptyString.

(** [s.split(sep)] for a one-character separator: the pieces between the
    occurrences of [sep]; never an empty list. *)
Fixpoint split_on (sep : ascii) (s : string) : list string :=
  match s with
  | EmptyString => [EmptyString]
  | String c s' =>
      if Ascii.eqb c sep then EmptyString :: split_on sep s'
      else match split_on sep s' with
           | [] => [String c EmptyString]
           | piece :: pieces => String c piece :: pieces
           end
  end.

(** Number of occurrences of a character in a string. *)
Fixpoint count_char (c : ascii) (s : string) : nat :=
  match s with
  | EmptyString => 0
  | String c' s' => (if Ascii.eqb c' c then 1 else 0) + count_char c s'
  end.

(** [s.rstrip(c)]: [s] without its trailing run of [c]. *)
Fixpoint rstrip (c : ascii) (s : string) : string :=
  match s with
  | EmptyString => EmptyString
  | String c' s' =>
      match rstrip c s' with
      | EmptyString => if Ascii.eqb c' c then EmptyString else String c' EmptyString
      | r => String c' r
      end
  end.

(** [s.lower()] on the ASCII letters. *)
Definition lower_char (c : ascii) : ascii :=
  let n := nat_of_ascii c in
  if (65 <=? n)%nat && (n <=? 90)%nat then ascii_of_nat (n + 32) else c.

Fixpoint lower (s : string) : string :=
  match s with
  | EmptyString => EmptyString
  | String c s' => String (lower_char c) (lower s')
  end.

(** The text of [s] from offset [n] on. *)
Fixpoint string_skip (n : nat) (s : string) : string :=
  match n, s with
  | O, _ => s
  | S _, EmptyString => EmptyString
  | S n', String _ s' => string_skip n' s'
  end.

(** [needle in hay]. *)
Fixpoint contains (needle hay : string) : bool :=
  String.prefix needle hay ||
  match hay with
  | EmptyString => false
  | String _ hay' => contains needle hay'
  end.

(** ** Exceptions, world and the effect monad *)

Inductive exn : Type :=
| JSONDecodeError : exn
| KeyError : string -> exn
| ValueError : exn
| TypeError : exn
| AttributeError : string -> exn
| ConnectionError : string -> exn
| RequestException : exn
| FileNotFoundError : string -> exn
| EOFError : exn
| SystemExit : Z -> exn.

Inductive result (A : Type) : Type :=
| Ok : A -> result A
| Raise : exn -> result A.
Arguments Ok {A} _.
Arguments Raise {A} _.

(** An HTTP request as [requests.post(url, data=...)] builds it, and the
    part of a response the script reads. *)
Record request : Type := Request {
  req_url : string;
  req_data : list (string * value)
}.

Record response : Type := Response {
  status_code : Z;
  reason : string;
  text : string
}.

(** What [print] wrote: an object printed through its [repr], or a line. *)
Inductive printed : Type :=
| PValue : value -> printed
| PLine : string -> printed.

(** The world the script runs in.  [fs] maps the path of every regular file
    to its text.  The file system is taken in its plain case: a file has
    one spelling of its path, a path that is opened names a file or a place
    where one can be made, and a file holds text that can be decoded; what
    the script does when an [open] or a [read] fails for another reason than
    a missing file is not described.  Further, [rng] with its cursor
    [rng_pos] is the random generator (draw number [i] is [rng i]); [stdin]
    holds the lines still to be read; [stdout] and [sent] record, oldest
    first, what was printed and which requests were made; [server] answers a
    request given the earlier ones, [None] being a transport fault; [argv0]
    is [sys.argv[0]]. *)
Record world : Type := World {
  fs : gmap string string;
  rng : nat -> nat;
  rng_pos : nat;
  stdin : list string;
  stdout : list printed;
  sent : list request;
  server : list request -> request -> option response;
  argv0 : string
}.

Definition set_fs (f : gmap string string) (w : world) : world :=
  World f (rng w) (rng_pos w) (stdin w) (stdout w) (sent w) (server w) (argv0 w).

Definition set_rng_pos (n : nat) (w : world) : world :=
  World (fs w) (rng w) n (stdin w) (stdout w) (sent w) (server w) (argv0 w).

Definition set_stdin (l : list string) (w : world) : world :=
  World (fs w) (rng w) (rng_pos w) l (stdout w) (sent w) (server w) (argv0 w).

Definition put (p : printed) (w : world) : world :=
  World (fs w) (rng w) (rng_pos w) (stdin w) (stdout w ++ [p]) (sent w)
        (server w) (argv0 w).

Definition log_request (r : request) (w : world) : world :=
  World (fs w) (rng w) (rng_pos w) (stdin w) (stdout w) (sent w ++ [r])
        (server w) (argv0 w).

(** A computation: runs in a world, returns a value or raises, and leaves a
    world behind either way. *)
Definition M (A : Type) : Type := world -> result A * world.

Definition ret {A} (a : A) : M A := fun w => (Ok a, w).

Definition raise {A} (e : exn) : M A := fun w => (Raise e, w).

Definition bind {A B} (m : M A) (k : A -> M B) : M B :=
  fun w =>
    match m w with
    | (Ok a, w') => k a w'
    | (Raise e, w') => (Raise e, w')
    end.

Notation "'let*' x ':=' m 'in' k" := (bind m (fun x => k))
  (at level 10, x name, m at level 100, k at level 200, only parsing).
Notation "'let*' ' p ':=' m 'in' k" := (bind m (fun x => match x with p => k end))
  (at level 10, p pattern, m at level 100, k at level 200, only parsing).
Notation "m1 '>>>' m2" := (bind m1 (fun _ => m2))
  (at level 65, right associativity, only parsing).

(** [try: m / except ...:] where [handler e] is the body of the clause that
    matches [e], if one does. *)
Definition try_except {A} (m : M A) (handler : exn -> option (M A)) : M A :=
  fun w =>
    match m w with
    | (Ok a, w') => (Ok a, w')
    | (Raise e, w') =>
        match handler e with
        | Some k => k w'
        | None => (Raise e, w')
        end
    end.

(** The exit status of the process for the outcome of [main]. *)
Definition exit_status (r : result unit) : Z :=
  match r with
  | Ok _ => 0
  | Raise (SystemExit n) => n
  | Raise _ => 1
  end.

(** ** Primitives of the Python runtime *)

Definition print (s : string) : M unit := fun w => (Ok tt, put (PLine s) w).

Definition print_value (v : value) : M unit := fun w => (Ok tt, put (PValue v) w).

(** [input()]: the next line of standard input, [EOFError] at its end. *)
Definition input : M string :=
  fun w =>
    match stdin w with
    | [] => (Raise EOFError, w)
    | line :: rest => (Ok line, set_stdin rest w)
    end.

Definition sys_exit {A} (code : Z) : M A := raise (SystemExit code).

Definition sys_argv0 : M string := fun w => (Ok (argv0 w), w).

(** [Path(p).is_file()]. *)
Definition is_file (p : string) : M bool :=
  fun w => (Ok (bool_decide (is_Some (fs w !! p))), w).

(** An open file: its path and the offset of the next read. *)
Record file : Type := File { f_path : string; f_pos : nat }.

(** [open(p, 'w')] and [open(p, 'w+')]: the file is created or truncated. *)
Definition open_w (p : string) : M file :=
  fun w => (Ok (File p 0), set_fs (<[p := EmptyString]> (fs w)) w).

(** [open(p)] and [open(p, 'r+')]: the file has to exist. *)
Definition open_r (p : string) : M file :=
  fun w =>
    match fs w !! p with
    | Some _ => (Ok (File p 0), w)
    | None => (Raise (FileNotFoundError p), w)
    end.

(** [f.read()]: the text from the current offset to the end of the file; the
    offset moves to the end. *)
Definition f_read (f : file) : M (string * file) :=
  fun w =>
    match fs w !! f_path f with
    | Some content =>
        (Ok (string_skip (f_pos f) content,
             File (f_path f) (Nat.max (f_pos f) (String.length content))), w)
    | None => (Ok (EmptyString, f), w)
    end.

(** [f.write(s)] on a file just opened for writing. *)
Definition f_write (f : file) (s : string) : M unit :=
  fun w =>
    let old := default EmptyString (fs w !! f_path f) in
    (Ok tt, set_fs (<[f_path f := old ++ s]> (fs w)) w).

Definition f_close (f : file) : M unit := ret tt.

(** [requests.post(url, data=data)]: the request is recorded and the server
    of the world answers it. *)
Definition requests_post (url : string) (data : list (string * value)) : M response :=
  fun w =>
    let r := Request url data in
    match server w (sent w) r with
    | Some resp => (Ok resp, log_request r w)
    | None => (Raise RequestException, log_request r w)
    end.

(** [random.choice(seq)] on a non-empty string. *)
Definition random_choice (seq : string) : M ascii :=
  fun w =>
    let i := (rng w (rng_pos w) mod String.length seq)%nat in
    (Ok (default "000"%char (String.get i seq)), set_rng_pos (S (rng_pos w)) w).

(** Dictionary and attribute access on dynamic values. *)
Definition py_get (v : value) (k : string) : M value :=
  match v with
  | VDict d => ret (default VNone (dict_get d k))
  | _ => raise (AttributeError "get")
  end.

Definition py_getitem (v : value) (k : string) : M value :=
  match v with
  | VDict d =>
      match dict_get d k with
      | Some x => ret x
      | None => raise (KeyError k)
      end
  | _ => raise TypeError
  end.

Definition py_setitem (v : value) (k : string) (x : value) : M value :=
  match v with
  | VDict d => ret (VDict (dict_set d k x))
  | _ => raise TypeError
  end.

(** [args[k]]: the entry is there or the lookup raises [KeyError]; argparse
    fixes the shape of every entry, and an entry of another shape than the
    one the script uses it at is a [TypeError]. *)
Definition item (args : dict) (k : string) : M value :=
  match dict_get args k with
  | Some v => ret v
  | None => raise (KeyError k)
  end.

Definition item_str (args : dict) (k : string) : M string :=
  let* v := item args k in
  match v with
  | VStr s => ret s
  | _ => raise TypeError
  end.

Definition item_list (args : dict) (k : string) : M (list value) :=
  let* v := item args k in
  match v with
  | VList l => ret l
  | _ => raise TypeError
  end.

(** ** The [json] module *)

(** [json.loads] and [json.dumps] belong to the Python library, not to the
    script.  The script is verified against this interface: [json_loads]
    answers [None] where [json.loads] raises [JSONDecodeError], which it
    does on the empty text, and [json.dumps] never writes the empty text. *)
Class Json : Type := {
  json_loads : string -> option value;
  json_dumps : value -> string;
  json_loads_empty : json_loads EmptyString = None;
  json_dumps_nonempty : forall v, json_dumps v <> EmptyString
}.

(** A codec for this interface, on which the concrete runs compute: null,
    booleans, integers, strings, lists and objects, written the way
    [json.dumps] writes them (a character outside printable ASCII as an
    escape); numbers with a fraction or an exponent are not read.  The
    theorems on the script hold for every codec of the interface. *)
Module MiniJson.

Definition digit_char (n : nat) : ascii := ascii_of_nat (48 + n mod 10).

(** Decimal digits of [n], most significant first, in front of [acc]. *)
Fixpoint dec_digits (fuel n : nat) (acc : string) : string :=
  let acc' := String (digit_char n) acc in
  match fuel with
  | O => acc'
  | S fuel' => if (n / 10 =? 0)%nat then acc' else dec_digits fuel' (n / 10) acc'
  end.

Definition dec_nat (n : nat) : string := dec_digits n n EmptyString.

Definition dec_Z (z : Z) : string :=
  if (z <? 0)%Z then String "-" (dec_nat (Z.to_nat (- z))) else dec_nat (Z.to_nat z).

Definition hex_digit (n : nat) : ascii :=
  if (n <? 10)%nat then ascii_of_nat (48 + n) else ascii_of_nat (87 + n).

(** The escape [json.dumps] writes for a character without a short one. *)
Definition u_escape (c : ascii) : string :=
  "\u00" ++ String (hex_digit (nat_of_ascii c / 16))
               (String (hex_digit (nat_of_ascii c mod 16)) EmptyString).

Definition escape_char (c : ascii) : string :=
  if Ascii.eqb c "034" then String "\" dquote
  else if Ascii.eqb c "\" then "\\"
  else if Ascii.eqb c "010" then "\n"
  else if Ascii.eqb c "013" then "\r"
  else if Ascii.eqb c "009" then "\t"
  else if Ascii.eqb c "008" then "\b"
  else if Ascii.eqb c "012" then "\f"
  else if (nat_of_ascii c <? 32)%nat || (127 <? nat_of_ascii c)%nat then u_escape c
  else String c EmptyString.

Fixpoint escape (s : string) : string :=
  match s with
  | EmptyString => EmptyString
  | String c s' => escape_char c ++ escape s'
  end.

Definition quote (s : string) : string := dquote ++ escape s ++ dquote.

Fixpoint dumps (v : value) : string :=
  match v with
  | VNone => "null"
  | VBool true => "true"
  | VBool false => "false"
  | VInt z => dec_Z z
  | VStr s => quote s
  | VList l =>
      "[" ++ (fix items (l : list value) : string :=
                match l with
                | [] => EmptyString
                | x :: l' =>
                    match l' with
                    | [] => dumps x
                    | _ :: _ => dumps x ++ ", " ++ items l'
                    end
                end) l ++ "]"
  | VDict d =>
      "{" ++ (fix members (d : dict) : string :=
                match d with
                | [] => EmptyString
                | (k, x) :: d' =>
                    match d' with
                    | [] => quote k ++ ": " ++ dumps x
                    | _ :: _ => quote k ++ ": " ++ dumps x ++ ", " ++ members d'
                    end
                end) d ++ "}"
  end.

Definition is_ws (c : ascii) : bool :=
  Ascii.eqb c " " || Ascii.eqb c "009" || Ascii.eqb c "010" || Ascii.eqb c "013".

Fixpoint skip_ws (s : string) : string :=
  match s with
  | String c s' => if is_ws c then skip_ws s' else s
  | EmptyString => EmptyString
  end.

Definition hex_value (c : ascii) : option nat :=
  let n := nat_of_ascii c in
  if (48 <=? n)%nat && (n <=? 57)%nat then Some (n - 48)
  else if (97 <=? n)%nat && (n <=? 102)%nat then Some (n - 87)
  else if (65 <=? n)%nat && (n <=? 70)%nat then Some (n - 55)
  else None.

(** The character of the escape with the four hexadecimal digits given, when
    it is one of the first 256. *)
Definition u_unescape (h1 h2 h3 h4 : ascii) : option ascii :=
  match hex_value h1, hex_value h2, hex_value h3, hex_value h4 with
  | Some 0, Some 0, Some a, Some b => Some (ascii_of_nat (16 * a + b))
  | _, _, _, _ => None
  end.

(** The text of a string literal after its opening quote. *)
Fixpoint parse_chars (s : string) : option (string * string) :=
  match s with
  | EmptyString => None
  | String c s' =>
      if Ascii.eqb c "034" then Some (EmptyString, s')
      else if Ascii.eqb c "\" then
        match s' with
        | String e s'' =>
            if Ascii.eqb e "u" then
              match s'' with
              | String h1 (String h2 (String h3 (String h4 s3))) =>
                  match u_unescape h1 h2 h3 h4, parse_chars s3 with
                  | Some u, Some (body, rest) => Some (String u body, rest)
                  | _, _ => None
                  end
              | _ => None
              end
            else
              let unescaped :=
                if Ascii.eqb e "034" then Some "034"%char
                else if Ascii.eqb e "\" then Some "\"%char
                else if Ascii.eqb e "/" then Some "/"%char
                else if Ascii.eqb e "n" then Some "010"%char
                else if Ascii.eqb e "r" then Some "013"%char
                else if Ascii.eqb e "t" then Some "009"%char
                else if Ascii.eqb e "b" then Some "008"%char
                else if Ascii.eqb e "f" then Some "012"%char
                else None in
              match unescaped, parse_chars s'' with
              | Some u, Some (body, rest) => Some (String u body, rest)
              | _, _ => None
              end
        | EmptyString => None
        end
      else if (nat_of_ascii c <? 32)%nat then None
      else match parse_chars s' with
           | Some (body, rest) => Some (String c body, rest)
           | None => None
           end
  end.

Definition is_digit (c : ascii) : bool :=
  (48 <=? nat_of_ascii c)%nat && (nat_of_ascii c <=? 57)%nat.

Fixpoint parse_digits (s : string) (acc : Z) : Z * string :=
  match s with
  | String c s' =>
      if is_digit c
      then parse_digits s' (10 * acc + Z.of_nat (nat_of_ascii c - 48))%Z
      else (acc, s)
  | EmptyString => (acc, s)
  end.

(** An integer literal; a fraction or an exponent is not accepted. *)
Definition parse_int (s : string) : option (Z * string) :=
  let '(neg, s1) :=
    match s with
    | String "-" s' => (true, s')
    | _ => (false, s)
    end in
  match s1 with
  | String c s2 =>
      if is_digit c then
        let '(n, rest) :=
          if Ascii.eqb c "0" then (0%Z, s2) else parse_digits s1 0 in
        match rest with
        | String d _ =>
            if is_digit d || Ascii.eqb d "." || Ascii.eqb d "e" || Ascii.eqb d "E"
            then None else Some (if neg then (- n)%Z else n, rest)
        | EmptyString => Some (if neg then (- n)%Z else n, rest)
        end
      else None
  | EmptyString => None
  end.

Definition expect (word : string) (v : value) (s : string) : option (value * string) :=
  if String.prefix word s then Some (v, string_skip (String.length word) s) else None.

Fixpoint parse_value (fuel : nat) (s : string) : option (value * string) :=
  match fuel with
  | O => None
  | S fuel' =>
      match skip_ws s with
      | EmptyString => None
      | String c rest as s1 =>
          if Ascii.eqb c "n" then expect "null" VNone s1
          else if Ascii.eqb c "t" then expect "true" (VBool true) s1
          else if Ascii.eqb c "f" then expect "false" (VBool false) s1
          else if Ascii.eqb c "034" then
            match parse_chars rest with
            | Some (body, r) => Some (VStr body, r)
            | None => None
            end
          else if Ascii.eqb c "[" then
            match skip_ws rest with
            | String "]" r => Some (VList [], r)
            | _ => parse_elems fuel' rest []
            end
          else if Ascii.eqb c "{" then
            match skip_ws rest with
            | String "}" r => Some (VDict [], r)
            | _ => parse_members fuel' rest []
            end
          else match parse_int s1 with
               | Some (z, r) => Some (VInt z, r)
               | None => None
               end
      end
  end
with parse_elems (fuel : nat) (s : string) (acc : list value) : option (value * string) :=
  match fuel with
  | O => None
  | S fuel' =>
      match parse_value fuel' s with
      | Some (v, r) =>
          match skip_ws r with
          | String "," r' => parse_elems fuel' r' (acc ++ [v])
          | String "]" r' => Some (VList (acc ++ [v]), r')
          | _ => None
          end
      | None => None
      end
  end
with parse_members (fuel : nat) (s : string) (acc : dict) : option (value * string) :=
  match fuel with
  | O => None
  | S fuel' =>
      match skip_ws s with
      | String "034" s1 =>
          match parse_chars s1 with
          | Some (k, r) =>
              match skip_ws r with
              | String ":" r1 =>
                  match parse_value fuel' r1 with
                  | Some (v, r2) =>
                      match skip_ws r2 with
                      | String "," r3 => parse_members fuel' r3 (dict_set acc k v)
                      | String "}" r3 => Some (VDict (dict_set acc k v), r3)
                      | _ => None
                      end
                  | None => None
                  end
              | _ => None
              end
          | None => None
          end
      | _ => None
      end
  end.

Definition loads (s : string) : option value :=
  match parse_value (2 * String.length s + 2) s with
  | Some (v, rest) =>
      match skip_ws rest with
      | EmptyString => Some v
      | String _ _ => None
      end
  | None => None
  end.

End MiniJson.

#[export] Instance mini_json : Json.
Proof.
  refine {| json_loads := MiniJson.loads; json_dumps := MiniJson.dumps |}.
  - reflexivity.
  - intros v; destruct v as [ | [ | ] | z | s | l | d ]; try discriminate.
    unfold MiniJson.dumps, MiniJson.dec_Z, MiniJson.dec_nat.
    destruct (z <? 0)%Z; [discriminate | ].
    destruct (Z.to_nat z) as [ | n ]; [discriminate | ].
    cbn [MiniJson.dec_digits].
    destruct (S n / 10 =? 0)%nat; [discriminate | ].
    generalize (S n / 10)%nat (String (MiniJson.digit_char (S n)) EmptyString).
    induction n as [ | fuel IH ]; intros m acc; cbn [MiniJson.dec_digits].
    + discriminate.
    + destruct (m / 10 =? 0)%nat; [discriminate | apply IH].
Defined.

(** ** The script *)

(** The command line after [argparse] read it, defaults filled in. *)
Record cli : Type := Cli {
  playlist : list string;
  add_missing : bool;
  hash : bool;
  url : string;
  link : string;
  m3u_ext : bool;
  settings_file : string
}.

(** A playlist parser [import_<tag>(file, args)] of the [importer] module:
    from the text of the open file and the argument dictionary to the tracks,
    or to the exception it raises. *)
Definition parser : Type := string -> dict -> result value.

Definition LINK_CODE_HELP_URL : string := "http://127.0.0.1:8000/link".

Definition ascii_lowercase : string := "abcdefghijklmnopqrstuvwxyz".
Definition digits : string := "0123456789".

(** [''.join(random.choice(alphabet) for _ in range(n))]. *)
Fixpoint random_chars (alphabet : string) (n : nat) : M string :=
  match n with
  | O => ret EmptyString
  | S n' =>
      let* c := random_choice alphabet in
      let* s := random_chars alphabet n' in
      ret (String c s)
  end.

Definition random_client_id : M string :=
  random_chars (ascii_lowercase ++ digits) 20.

(** The attribute dictionary of the parsed namespace: one entry per
    [add_argument], keyed by its destination name. *)
Definition namespace (c : cli) : dict :=
  [ ("playlist", VList (map VStr (playlist c)));
    ("add_missing", VBool (add_missing c));
    ("hash", VBool (hash c));
    ("url", VStr (url c));
    ("link", VStr (link c));
    ("m3u_ext", VBool (m3u_ext c));
    ("settings_file", VStr (settings_file c)) ].

(** client.py, lines 71-86, on a command line that [argparse] accepts. *)
Definition parse_args (c : cli) : M dict := ret (namespace c).

Section Client.

Context {J : Json}.

(** [getattr(importer, name)]: the parser bound to [name] in the [importer]
    module, [None] where the lookup raises [AttributeError]. *)
Variable importer : string -> option parser.

Definition json_loads_m (s : string) : M value :=
  match json_loads s with
  | Some v => ret v
  | None => raise JSONDecodeError
  end.

(** client.py, lines 23-44. *)
Definition load_settings (settings_file : string) : M value :=
  let* present := is_file settings_file in
  (if negb present
   then let* f := open_w settings_file in f_close f
   else ret tt) >>>
  let* sfile := open_r settings_file in
  let* '(settings_str, sfile) := f_read sfile in
  if (0 <? String.length settings_str)%nat then
    let* '(again, sfile) := f_read sfile in
    let* settings := json_loads_m again in
    let* found :=
      try_except
        (let* id := py_get settings "id" in
         ret (truthy id))
        (fun e => match e with KeyError _ => Some (ret false) | _ => None end) in
    if found then ret settings
    else
      let* id := random_client_id in
      py_setitem settings "id" (VStr id)
  else
    let* id := random_client_id in
    ret (VDict [("id", VStr id)]).

(** client.py, lines 47-54. *)
Definition save_settings (settings : value) (settings_file : string) : M unit :=
  let* sfile := open_w settings_file in
  f_write sfile (json_dumps settings).

(** client.py, lines 57-68. *)
Definition link_account (link_code : string) (url : string) (client_id : value) : M unit :=
  let* response :=
    requests_post (url ++ "client-link/")
                  [("link", VStr link_code); ("client", client_id)] in
  if (status_code response =? 200)%Z then ret tt
  else raise (ConnectionError (text response)).

(** client.py, lines 99-109: the settings are loaded; a decode failure asks
    whether to reset the file. *)
Definition main_load (args : dict) : M value :=
  try_except
    (let* sf := item_str args "settings_file" in
     load_settings sf)
    (fun e =>
       match e with
       | JSONDecodeError =>
           Some
             (let* sf1 := item_str args "settings_file" in
              let* sf2 := item_str args "settings_file" in
              print ("Error loading settings from " ++ sf1 ++
                     " (malformed file). Delete " ++ sf2 ++
                     " to fix this? (y/N)") >>>
              let* answer := input in
              if String.eqb (lower answer) "y" then
                let* target := item_str args "settings" in
                let* f := open_w target in
                f_close f >>>
                let* sf := item_str args "settings_file" in
                let* settings := load_settings sf in
                let* sf := item_str args "settings_file" in
                save_settings settings sf >>>
                ret settings
              else sys_exit 0)
       | _ => None
       end).

(** client.py, lines 111-119: the account is linked when a code is given. *)
Definition main_link (args : dict) (settings : value) : M value :=
  let* code := item_str args "link" in
  if truthy (VStr code) then
    try_except
      (let* code := item_str args "link" in
       let* url := item_str args "url" in
       let* id := py_getitem settings "id" in
       link_account code url id)
      (fun e =>
         match e with
         | ConnectionError msg =>
             Some (print ("Error linking account (" ++ msg ++ ").") >>>
                   sys_exit 1)
         | _ => None
         end) >>>
    print "Link successful" >>>
    let* code := item_str args "link" in
    let* settings := py_setitem settings "link" (VStr code) in
    let* sf := item_str args "settings_file" in
    save_settings settings sf >>>
    ret settings
  else ret settings.

(** client.py, lines 134-142: the playlist is parsed and posted, and the
    outcome reported. *)
Definition import_and_upload (parse_playlist : parser) (args : dict)
    (settings : value) (playlist name : string) : M unit :=
  let* file := open_r playlist in
  let* '(content, file) := f_read file in
  let* tracks :=
    match parse_playlist content args with
    | Ok tracks => ret tracks
    | Raise e => raise e
    end in
  let* url := item_str args "url" in
  let* id := py_getitem settings "id" in
  let* response :=
    requests_post (url ++ "/client-import/")
                  [("playlist_name", VStr name);
                   ("tracks", VStr (json_dumps tracks));
                   ("client_id", id)] in
  if negb (status_code response =? 200)%Z then
    print ("Error adding " ++ playlist ++ ": " ++ reason response)
  else
    let* url := item_str args "url" in
    print ("Imported " ++ playlist ++ " to " ++ url ++ "/list/" ++
           text response ++ "/").

(** client.py, lines 127-142: the body of the loop for one playlist. *)
Definition playlist_body (args : dict) (settings : value) (playlist : value) : M unit :=
  match playlist with
  | VStr playlist =>
      match split_on "." playlist with
      | [name; filetype] =>
          match importer ("import_" ++ filetype) with
          | None =>
              print ("Invalid filetype " ++ dquote ++ "." ++ filetype ++ dquote)
          | Some parse_playlist =>
              import_and_upload parse_playlist args settings playlist name
          end
      | _ => raise ValueError
      end
  | _ => raise (AttributeError "split")
  end.

(** client.py, lines 126-142. *)
Fixpoint playlist_loop (args : dict) (settings : value) (playlists : list value) : M unit :=
  match playlists with
  | [] => ret tt
  | playlist :: rest =>
      playlist_body args settings playlist >>>
      playlist_loop args settings rest
  end.

(** client.py, lines 120-142: the link gate, the base URL without its
    trailing slashes, and the loop over the playlists. *)
Definition main_upload (args : dict) (settings : value) : M unit :=
  let* linked := py_get settings "link" in
  (if negb (truthy linked) then
     let* prog := sys_argv0 in
     print ("No account linked. Get a link code from " ++ LINK_CODE_HELP_URL ++
            " and run " ++ prog ++ " -l [code]") >>>
     sys_exit 0
   else ret tt) >>>
  let* url := item_str args "url" in
  let args := dict_set args "url" (VStr (rstrip "/" url)) in
  let* playlists := item_list args "playlist" in
  playlist_loop args settings playlists.

(** client.py, lines 93-119: the arguments are read and printed, an empty
    playlist list ends the run, the settings are loaded and the account is
    linked; the outcome is the argument dictionary and the settings. *)
Definition main_settings (c : cli) : M (dict * value) :=
  let* args := parse_args c in
  print_value (VDict args) >>>
  let* playlists := item_list args "playlist" in
  (if (length playlists =? 0)%nat then
     print "Specify at least one playlist for importing" >>>
     sys_exit 0
   else ret tt) >>>
  let* settings := main_load args in
  let* settings := main_link args settings in
  ret (args, settings).

(** client.py, lines 89-142. *)
Definition main (c : cli) : M unit :=
  let* '(args, settings) := main_settings c in
  main_upload args settings.

End Client.

(** ** Concrete worlds *)

Module Scenario.

(** An [importer] module with the single parser [import_m3u], which returns
    one track per playlist: the text of the file. *)
Definition importer (name : string) : option parser :=
  if String.eqb name "import_m3u"
  then Some (fun content _ => Ok (VList [VStr content]))
  else None.

(** A server that refuses every link code with 403 and fails every import. *)
Definition refusing (_ : list request) (r : request) : option response :=
  if String.eqb (req_url r) "http://127.0.0.1:8000/client-link/"
  then Some (Response 403 "Forbidden" "bad code")
  else Some (Response 500 "Internal Server Error" "server error").

(** A server that accepts every link code, imports the playlist named [a]
    as [abc123] and fails every other import with 500. *)
Definition accepting (_ : list request) (r : request) : option response :=
  if contains "client-link/" (req_url r) then Some (Response 200 "OK" EmptyString)
  else
    match dict_get (req_data r) "playlist_name" with
    | Some (VStr "a") => Some (Response 200 "OK" "abc123")
    | _ => Some (Response 500 "Internal Server Error" "server error")
    end.

Definition stored_settings : string :=
  "{" ++ dquote ++ "id" ++ dquote ++ ": " ++
  dquote ++ "abcdefghij0123456789" ++ dquote ++ "}".

(** A machine with two playlists and no settings file. *)
Definition fresh (srv : list request -> request -> option response) : world :=
  {| fs := <["a.m3u" := "one.mp3"]> (<["b.m3u" := "two.mp3"]> ∅);
     rng := fun i => i;
     rng_pos := 0;
     stdin := [];
     stdout := [];
     sent := [];
     server := srv;
     argv0 := "client.py" |}.

(** The same machine with a settings file that holds an id, and a user who
    answers [y]. *)
Definition returning (srv : list request -> request -> option response) : world :=
  set_stdin ["y"] (set_fs (<["./settings.txt" := stored_settings]> (fs (fresh srv))) (fresh srv)).

(** The world after a first load of the settings: the settings file exists,
    empty, and twenty draws were made for the id. *)
Definition loaded (w : world) : world :=
  set_rng_pos 20 (set_fs (<["./settings.txt" := EmptyString]> (fs w)) w).

(** A server at [http://127.0.0.1:8000] that answers on its two endpoints; a
    request to any other URL cannot be delivered. *)
Definition strict (_ : list request) (r : request) : option response :=
  if String.eqb (req_url r) "http://127.0.0.1:8000/client-link/"
  then Some (Response 200 "OK" EmptyString)
  else if String.eqb (req_url r) "http://127.0.0.1:8000/client-import/"
  then Some (Response 200 "OK" "abc123")
  else None.

(** A server that cannot be reached. *)
Definition offline (_ : list request) (_ : request) : option response := None.


(** The machine with a settings file that exists and is empty. *)
Definition emptied (srv : list request -> request -> option response) : world :=
  set_fs (<["./settings.txt" := EmptyString]> (fs (fresh srv))) (fresh srv).

Definition command (playlists : list string) (base code : string) : cli :=
  {| playlist := playlists; add_missing := false; hash := false; url := base;
     link := code; m3u_ext := false; settings_file := "./settings.txt" |}.

End Scenario.

(** The question [main] prints when the settings fail to load. *)
Definition reset_prompt (c : cli) : string :=
  "Error loading settings from " ++ settings_file c ++
  " (malformed file). Delete " ++ settings_file c ++ " to fix this? (y/N)".

(** The line [import_and_upload] prints for a response. *)
Definition upload_report (playlist base : string) (resp : response) : string :=
  if (status_code resp =? 200)%Z
  then "Imported " ++ playlist ++ " to " ++ base ++ "/list/" ++ text resp ++ "/"
  else "Error adding " ++ playlist ++ ": " ++ reason resp.

(** [emits P m]: whatever the world, the requests [m] sends are added at the
    end of the log and each of them satisfies [P]. *)
Definition emits {A} (P : request -> Prop) (m : M A) : Prop :=
  forall w, exists l, sent (snd (m w)) = (sent w ++ l)%list /\ Forall P l.

(** The two requests a run for the command line [c] can make: the link
    request, to the base URL as it was given followed by [client-link/], and
    an import request, to the base URL without its trailing slashes followed
    by [/client-import/]. *)
Definition link_request (c : cli) (r : request) : Prop :=
  exists id,
    r = Request (url c ++ "client-link/") [("link", VStr (link c)); ("client", id)].

Definition import_request (c : cli) (r : request) : Prop :=
  exists name tracks id,
    r = Request (rstrip "/" (url c) ++ "/client-import/")
          [("playlist_name", VStr name); ("tracks", VStr tracks); ("client_id", id)].

Definition request_of_run (c : cli) (r : request) : Prop :=
  link_request c r \/ import_request c r.

(** The [n] characters that [random_chars] draws from an alphabet when the
    cursor of the generator stands at [pos]. *)
Fixpoint drawn (alphabet : string) (gen : nat -> nat) (pos n : nat) : string :=
  match n with
  | O => EmptyString
  | S n' =>
      String (default "000"%char
                (String.get (gen pos mod String.length alphabet) alphabet))
             (drawn alphabet gen (S pos) n')
  end.

(** The client id [random_client_id] returns in a world. *)
Definition client_id_at (w : world) : string :=
  drawn (ascii_lowercase ++ digits) (rng w) (rng_pos w) 20.

(** A lowercase letter or a digit. *)
Definition is_id_char (c : ascii) : bool :=
  let n := nat_of_ascii c in
  ((97 <=? n)%nat && (n <=? 122)%nat) || ((48 <=? n)%nat && (n <=? 57)%nat).

Fixpoint all_chars (P : ascii -> bool) (s : string) : bool :=
  match s with
  | EmptyString => true
  | String c s' => P c && all_chars P s'
  end.

(** [n] copies of a character. *)
Fixpoint copies (c : ascii) (n : nat) : string :=
  match n with
  | O => EmptyString
  | S n' => String c (copies c n')
  end.

(** The last character of [s] is [c]. *)
Fixpoint ends_in (c : ascii) (s : string) : bool :=
  match s with
  | EmptyString => false
  | String c' EmptyString => Ascii.eqb c' c
  | String _ s' => ends_in c s'
  end.

(** [sends n P m]: whatever the world, [m] adds at most [n] requests to the
    log, each of them satisfying [P]. *)
Definition sends {A} (n : nat) (P : request -> Prop) (m : M A) : Prop :=
  forall w, exists l,
    sent (snd (m w)) = (sent w ++ l)%list /\ length l <= n /\ Forall P l.

(** The request names [id] as the client, in the field of a link request or
    in the field of an import request. *)
Definition carries_id (id : value) (r : request) : Prop :=
  dict_get (req_data r) "client" = Some id
  \/ dict_get (req_data r) "client_id" = Some id.

(** ** Strings: splitting and skipping *)

Lemma string_skip_length (s : string) : string_skip (String.length s) s = EmptyString.
Proof. induction s as [ | c s IH ]; [reflexivity | exact IH]. Qed.


Lemma split_on_none (sep : ascii) (s : string) :
  count_char sep s = 0 -> split_on sep s = [s].
Proof.
  induction s as [ | c s IH ]; [reflexivity | ].
  cbn [split_on count_char].
  destruct (Ascii.eqb c sep); [discriminate | ].
  intros H. now rewrite (IH H).
Qed.

Lemma split_on_first (sep : ascii) (a b : string) :
  count_char sep a = 0 ->
  split_on sep (a ++ String sep b) = a :: split_on sep b.
Proof.
  induction a as [ | c a IH ].
  - intros _. change (EmptyString ++ String sep b) with (String sep b).
    cbn [split_on]. now rewrite Ascii.eqb_refl.
  - change (String c a ++ String sep b) with (String c (a ++ String sep b)).
    cbn [split_on count_char].
    destruct (Ascii.eqb c sep); [discriminate | ].
    intros H. now rewrite (IH H).
Qed.

(** ** Running computations *)

Lemma bind_ok {A B} (m : M A) (k : A -> M B) (w w' : world) (a : A) :
  m w = (Ok a, w') -> bind m k w = k a w'.
Proof. intros H. unfold bind. now rewrite H. Qed.

Lemma bind_raise {A B} (m : M A) (k : A -> M B) (w w' : world) (e : exn) :
  m w = (Raise e, w') -> bind m k w = (Raise e, w').
Proof. intros H. unfold bind. now rewrite H. Qed.

Lemma is_file_present (p content : string) (w : world) :
  fs w !! p = Some content -> is_file p w = (Ok true, w).
Proof.
  intros H. unfold is_file. now rewrite bool_decide_eq_true_2 by (rewrite H; eauto).
Qed.

Lemma open_r_present (p content : string) (w : world) :
  fs w !! p = Some content -> open_r p w = (Ok (File p 0), w).
Proof. intros H. unfold open_r. now rewrite H. Qed.

Lemma f_read_start (p content : string) (w : world) :
  fs w !! p = Some content ->
  f_read (File p 0) w = (Ok (content, File p (String.length content)), w).
Proof. intros H. unfold f_read. cbn. now rewrite H. Qed.

Lemma f_read_end (p content : string) (w : world) :
  fs w !! p = Some content ->
  f_read (File p (String.length content)) w
  = (Ok (EmptyString, File p (String.length content)), w).
Proof.
  intros H. unfold f_read. cbn [f_path f_pos]. rewrite H.
  now rewrite string_skip_length, Nat.max_id.
Qed.

Lemma item_str_get (args : dict) (k s : string) (w : world) :
  dict_get args k = Some (VStr s) -> item_str args k w = (Ok s, w).
Proof. intros H. unfold item_str, item, bind. now rewrite H. Qed.

Lemma py_getitem_get (d : dict) (k : string) (x : value) (w : world) :
  dict_get d k = Some x -> py_getitem (VDict d) k w = (Ok x, w).
Proof. intros H. unfold py_getitem. now rewrite H. Qed.

Lemma requests_post_answer (u : string) (data : list (string * value))
    (resp : response) (w : world) :
  server w (sent w) (Request u data) = Some resp ->
  requests_post u data w = (Ok resp, log_request (Request u data) w).
Proof. intros H. unfold requests_post. cbn. now rewrite H. Qed.

Lemma try_except_ok {A} (m : M A) (handler : exn -> option (M A))
    (w w' : world) (a : A) :
  m w = (Ok a, w') -> try_except m handler w = (Ok a, w').
Proof. intros H. unfold try_except. now rewrite H. Qed.

Lemma try_except_caught {A} (m : M A) (handler : exn -> option (M A))
    (w w' : world) (e : exn) (k : M A) :
  m w = (Raise e, w') -> handler e = Some k -> try_except m handler w = k w'.
Proof. intros H Hk. unfold try_except. now rewrite H, Hk. Qed.

Lemma dict_get_set_eq (d : dict) (k : string) (v : value) :
  dict_get (dict_set d k v) k = Some v.
Proof.
  induction d as [ | [k' v'] d IH ]; cbn [dict_set dict_get].
  - now rewrite String.eqb_refl.
  - destruct (String.eqb k' k) eqn:E; cbn [dict_get]; rewrite E; [reflexivity | exact IH].
Qed.

(** ** The requests a computation sends *)

Lemma emits_quiet {A} (P : request -> Prop) (m : M A) :
  (forall w, sent (snd (m w)) = sent w) -> emits P m.
Proof.
  intros H w. exists []. rewrite H, app_nil_r. split; [reflexivity | constructor].
Qed.

Lemma emits_ext {A} (P : request -> Prop) (m m' : M A) :
  (forall w, m w = m' w) -> emits P m' -> emits P m.
Proof. intros Heq H w. rewrite Heq. apply H. Qed.

Lemma emits_bind_cond {A B} (P : request -> Prop) (Q : A -> Prop)
    (m : M A) (k : A -> M B) :
  emits P m ->
  (forall w a w', m w = (Ok a, w') -> Q a) ->
  (forall a, Q a -> emits P (k a)) ->
  emits P (bind m k).
Proof.
  intros Hm HQ Hk w. unfold bind.
  destruct (Hm w) as [l1 [H1 F1]].
  destruct (m w) as [[a | e] w1] eqn:E; cbn [snd] in H1.
  - destruct (Hk a (HQ _ _ _ E) w1) as [l2 [H2 F2]].
    exists (l1 ++ l2)%list. rewrite H2, H1, app_assoc.
    split; [reflexivity | ]. apply Forall_app. now split.
  - exists l1. now split.
Qed.

Lemma emits_bind {A B} (P : request -> Prop) (m : M A) (k : A -> M B) :
  emits P m -> (forall a, emits P (k a)) -> emits P (bind m k).
Proof.
  intros Hm Hk. apply (emits_bind_cond P (fun _ => True)); auto.
Qed.

Lemma emits_try_except {A} (P : request -> Prop) (m : M A)
    (handler : exn -> option (M A)) :
  emits P m ->
  (forall e k, handler e = Some k -> emits P k) ->
  emits P (try_except m handler).
Proof.
  intros Hm Hh w. unfold try_except.
  destruct (Hm w) as [l1 [H1 F1]].
  destruct (m w) as [[a | e] w1] eqn:E; cbn [snd] in H1.
  - exists l1. now split.
  - destruct (handler e) as [k | ] eqn:Ek.
    + destruct (Hh e k Ek w1) as [l2 [H2 F2]].
      exists (l1 ++ l2)%list. rewrite H2, H1, app_assoc.
      split; [reflexivity | ]. apply Forall_app. now split.
    + exists l1. now split.
Qed.

Lemma emits_ret {A} (P : request -> Prop) (a : A) : emits P (ret a).
Proof. now apply emits_quiet. Qed.

Lemma emits_raise {A} (P : request -> Prop) (e : exn) : emits P (@raise A e).
Proof. now apply emits_quiet. Qed.

Lemma emits_sys_exit {A} (P : request -> Prop) (n : Z) : emits P (@sys_exit A n).
Proof. now apply emits_quiet. Qed.

Lemma emits_print (P : request -> Prop) (s : string) : emits P (print s).
Proof. now apply emits_quiet. Qed.

Lemma emits_print_value (P : request -> Prop) (v : value) : emits P (print_value v).
Proof. now apply emits_quiet. Qed.

Lemma emits_input (P : request -> Prop) : emits P input.
Proof. apply emits_quiet. intros w. unfold input. now destruct (stdin w). Qed.

Lemma emits_sys_argv0 (P : request -> Prop) : emits P sys_argv0.
Proof. now apply emits_quiet. Qed.

Lemma emits_is_file (P : request -> Prop) (p : string) : emits P (is_file p).
Proof. now apply emits_quiet. Qed.

Lemma emits_open_w (P : request -> Prop) (p : string) : emits P (open_w p).
Proof. now apply emits_quiet. Qed.

Lemma emits_open_r (P : request -> Prop) (p : string) : emits P (open_r p).
Proof. apply emits_quiet. intros w. unfold open_r. now destruct (fs w !! p). Qed.

Lemma emits_f_read (P : request -> Prop) (f : file) : emits P (f_read f).
Proof. apply emits_quiet. intros w. unfold f_read. now destruct (fs w !! f_path f). Qed.

Lemma emits_f_write (P : request -> Prop) (f : file) (s : string) : emits P (f_write f s).
Proof. now apply emits_quiet. Qed.

Lemma emits_f_close (P : request -> Prop) (f : file) : emits P (f_close f).
Proof. now apply emits_quiet. Qed.

Lemma emits_random_choice (P : request -> Prop) (seq : string) :
  emits P (random_choice seq).
Proof. now apply emits_quiet. Qed.

Lemma emits_py_get (P : request -> Prop) (v : value) (k : string) : emits P (py_get v k).
Proof. apply emits_quiet. intros w. now destruct v. Qed.

Lemma emits_py_getitem (P : request -> Prop) (v : value) (k : string) :
  emits P (py_getitem v k).
Proof.
  apply emits_quiet. intros w. destruct v; try reflexivity.
  unfold py_getitem. now destruct (dict_get _ k).
Qed.

Lemma emits_py_setitem (P : request -> Prop) (v : value) (k : string) (x : value) :
  emits P (py_setitem v k x).
Proof. apply emits_quiet. intros w. now destruct v. Qed.

Lemma emits_item (P : request -> Prop) (args : dict) (k : string) : emits P (item args k).
Proof. apply emits_quiet. intros w. unfold item. now destruct (dict_get args k). Qed.

Lemma emits_item_str (P : request -> Prop) (args : dict) (k : string) :
  emits P (item_str args k).
Proof.
  apply emits_bind; [apply emits_item | ].
  intros [ | | | | | ]; first [apply emits_ret | apply emits_raise].
Qed.

Lemma emits_item_list (P : request -> Prop) (args : dict) (k : string) :
  emits P (item_list args k).
Proof.
  apply emits_bind; [apply emits_item | ].
  intros [ | | | | | ]; first [apply emits_ret | apply emits_raise].
Qed.

Lemma emits_requests_post (P : request -> Prop) (u : string)
    (data : list (string * value)) :
  P (Request u data) -> emits P (requests_post u data).
Proof.
  intros HP w. exists [Request u data]. unfold requests_post. cbn zeta.
  split; [now destruct (server w (sent w) (Request u data)) | ].
  constructor; [exact HP | constructor].
Qed.

Lemma emits_random_chars (P : request -> Prop) (alphabet : string) (n : nat) :
  emits P (random_chars alphabet n).
Proof.
  induction n as [ | n IH ]; cbn [random_chars]; [apply emits_ret | ].
  apply emits_bind; [apply emits_random_choice | intros c ].
  apply emits_bind; [exact IH | intros s; apply emits_ret ].
Qed.

Lemma emits_random_client_id (P : request -> Prop) : emits P random_client_id.
Proof. apply emits_random_chars. Qed.

Create HintDb emits.
#[export] Hint Resolve emits_ret emits_raise emits_sys_exit emits_print
  emits_print_value emits_input emits_sys_argv0 emits_is_file emits_open_w
  emits_open_r emits_f_read emits_f_write emits_f_close emits_random_choice
  emits_py_get emits_py_getitem emits_py_setitem emits_item emits_item_str
  emits_item_list emits_random_client_id : emits.

(** Splits a goal [emits P m] along the structure of [m]. *)
Ltac emits_step :=
  match goal with
  | |- emits _ (bind _ _) => apply emits_bind; [ | intros ? ]
  | |- emits _ (try_except _ _) =>
      apply emits_try_except;
      [ | let e := fresh "e" in let k := fresh "k" in let H := fresh "H" in
          intros e k H; destruct e; try discriminate H;
          injection H as <- ]
  | |- emits _ (if ?b then _ else _) => destruct b
  | |- emits _ (match ?x with _ => _ end) => destruct x
  | |- emits _ _ => solve [eauto with emits]
  end.

Section Properties.

Context {J : Json}.
Variable importer : string -> option parser.

(** A second [read] on the settings file returns the empty text, which
    [json.loads] rejects: a file with any text in it never loads. *)
Lemma load_settings_nonempty (p content : string) (w : world) :
  fs w !! p = Some content ->
  content <> EmptyString ->
  load_settings p w = (Raise JSONDecodeError, w).
Proof.
  intros Hf Hne. unfold load_settings.
  rewrite (bind_ok _ _ _ _ _ (is_file_present _ _ _ Hf)). cbn [negb].
  rewrite (bind_ok _ _ w w tt) by reflexivity.
  rewrite (bind_ok _ _ _ _ _ (open_r_present _ _ _ Hf)).
  rewrite (bind_ok _ _ _ _ _ (f_read_start _ _ _ Hf)).
  destruct content as [ | c content ]; [contradiction | ].
  cbn [String.length Nat.ltb Nat.leb].
  rewrite (bind_ok _ _ _ _ _ (f_read_end _ _ _ Hf)).
  apply bind_raise. unfold json_loads_m. now rewrite json_loads_empty.
Qed.

(** C1: a settings file whose text is a JSON object with a usable id does not
    load at all: [load_settings] raises [JSONDecodeError] and leaves the
    world as it was, so the stored id is never returned. *)
Theorem load_settings_stored_id_raises (p content : string) (d : dict)
    (id : value) (w : world) :
  fs w !! p = Some content ->
  json_loads content = Some (VDict d) ->
  dict_get d "id" = Some id ->
  truthy id = true ->
  load_settings p w = (Raise JSONDecodeError, w).
Proof.
  intros Hf Hjson _ _. apply (load_settings_nonempty p content w Hf).
  intros ->. rewrite json_loads_empty in Hjson. discriminate.
Qed.

Lemma save_settings_run (settings : value) (p : string) (w : world) :
  save_settings settings p w
  = (Ok tt, set_fs (<[p := json_dumps settings]> (fs w)) w).
Proof.
  unfold save_settings, bind, open_w, f_write, set_fs. cbn.
  rewrite lookup_insert_eq. cbn. now rewrite insert_insert_eq.
Qed.

(** C2: saving any settings and loading them back from the same path raises
    [JSONDecodeError]; no key of the saved object comes back. *)
Theorem save_then_load_raises (settings : value) (p : string) (w : world) :
  (save_settings settings p >>> load_settings p) w
  = (Raise JSONDecodeError, set_fs (<[p := json_dumps settings]> (fs w)) w).
Proof.
  rewrite (bind_ok _ _ _ _ _ (save_settings_run settings p w)).
  apply (load_settings_nonempty p (json_dumps settings)).
  - cbn. apply lookup_insert_eq.
  - apply json_dumps_nonempty.
Qed.

(** The run up to the loading of the settings, for a command line that
    names a playlist. *)
Lemma main_settings_start (c : cli) (w : world) :
  playlist c <> [] ->
  main_settings c w
  = (let* settings := main_load (namespace c) in
     let* settings := main_link (namespace c) settings in
     ret (namespace c, settings)) (put (PValue (VDict (namespace c))) w).
Proof.
  intros Hpl. unfold main_settings, parse_args.
  destruct (playlist c) as [ | p ps ] eqn:E; [contradiction | ].
  unfold bind at 1 2 3 4. unfold ret at 1. unfold print_value.
  unfold item_list, item, bind at 1. cbn [namespace dict_get String.eqb Ascii.eqb Bool.eqb].
  unfold ret at 1. rewrite E. reflexivity.
Qed.

(** C4: when the settings file fails to load (as every file with text in it
    does) and the user answers [y], the run stops with [KeyError] on the key
    [settings], which the argument dictionary does not have; no file is
    cleared, the settings file keeps its text. *)
Theorem reset_raises_key_error (c : cli) (w : world) (content answer : string)
    (rest : list string) :
  playlist c <> [] ->
  fs w !! settings_file c = Some content ->
  content <> EmptyString ->
  stdin w = answer :: rest ->
  lower answer = "y" ->
  main importer c w
  = (Raise (KeyError "settings"),
     set_stdin rest (put (PLine (reset_prompt c)) (put (PValue (VDict (namespace c))) w)))
  /\ fs (snd (main importer c w)) = fs w.
Proof.
  intros Hpl Hf Hne Hin Hy.
  assert (main importer c w
          = (Raise (KeyError "settings"),
             set_stdin rest (put (PLine (reset_prompt c))
                                 (put (PValue (VDict (namespace c))) w)))) as Hrun.
  { unfold main. erewrite bind_raise; [reflexivity | ].
    rewrite (main_settings_start c w Hpl).
    apply bind_raise. unfold main_load, try_except.
    rewrite (bind_ok _ _ _ _ (settings_file c)) by reflexivity.
    rewrite (load_settings_nonempty (settings_file c) content
               (put (PValue (VDict (namespace c))) w) Hf Hne).
    rewrite (bind_ok _ _ _ _ (settings_file c)) by reflexivity.
    rewrite (bind_ok _ _ _ _ (settings_file c)) by reflexivity.
    unfold bind at 1, print. fold (reset_prompt c).
    unfold bind at 1, input. cbn [stdin put]. rewrite Hin, Hy.
    cbn [String.eqb Ascii.eqb Bool.eqb].
    apply bind_raise. reflexivity. }
  split; [exact Hrun | now rewrite Hrun].
Qed.




Lemma split_on_name_filetype (name filetype : string) :
  count_char "." name = 0 ->
  count_char "." filetype = 0 ->
  split_on "." (name ++ "." ++ filetype) = [name; filetype].
Proof.
  intros Hn Hf.
  change ("." ++ filetype) with (String "." filetype).
  now rewrite (split_on_first "." name filetype Hn), (split_on_none "." filetype Hf).
Qed.

(** What [import_and_upload] does with a playlist whose file is there: the
    parser is applied to the text of the file and the argument dictionary;
    its exception ends the call, its tracks are posted and the answer is
    reported. *)
Lemma import_and_upload_parser_raises (parse_playlist : parser) (args : dict)
    (settings : value) (p name content : string) (e : exn) (w : world) :
  fs w !! p = Some content ->
  parse_playlist content args = Raise e ->
  import_and_upload parse_playlist args settings p name w = (Raise e, w).
Proof.
  intros Hf Hparse. unfold import_and_upload.
  rewrite (bind_ok _ _ _ _ _ (open_r_present _ _ _ Hf)).
  rewrite (bind_ok _ _ _ _ _ (f_read_start _ _ _ Hf)).
  rewrite Hparse. apply bind_raise. reflexivity.
Qed.

Lemma import_and_upload_posts (parse_playlist : parser) (args d : dict)
    (p name content base : string) (tracks id : value) (resp : response)
    (w : world) :
  fs w !! p = Some content ->
  parse_playlist content args = Ok tracks ->
  dict_get args "url" = Some (VStr base) ->
  dict_get d "id" = Some id ->
  server w (sent w)
    (Request (base ++ "/client-import/")
       [("playlist_name", VStr name); ("tracks", VStr (json_dumps tracks));
        ("client_id", id)]) = Some resp ->
  import_and_upload parse_playlist args (VDict d) p name w
  = (Ok tt,
     put (PLine (upload_report p base resp))
       (log_request
          (Request (base ++ "/client-import/")
             [("playlist_name", VStr name); ("tracks", VStr (json_dumps tracks));
              ("client_id", id)]) w)).
Proof.
  intros Hf Hparse Hurl Hid Hsrv. unfold import_and_upload.
  rewrite (bind_ok _ _ _ _ _ (open_r_present _ _ _ Hf)).
  rewrite (bind_ok _ _ _ _ _ (f_read_start _ _ _ Hf)).
  rewrite Hparse.
  rewrite (bind_ok _ _ w w tracks) by reflexivity.
  rewrite (bind_ok _ _ _ _ _ (item_str_get _ _ _ _ Hurl)).
  rewrite (bind_ok _ _ _ _ _ (py_getitem_get _ _ _ _ Hid)).
  rewrite (bind_ok _ _ _ _ _ (requests_post_answer _ _ _ _ Hsrv)).
  unfold upload_report.
  destruct (status_code resp =? 200)%Z; cbn [negb].
  - rewrite (bind_ok _ _ _ _ _ (item_str_get _ _ _ _ Hurl)). reflexivity.
  - reflexivity.
Qed.

(** C9, as the script has it: for a playlist path [name.filetype] with its
    one dot, when the [importer] module has no [import_filetype] the loop
    prints the invalid-filetype line for that file and goes on with the rest
    of the batch in the world it found, one line longer; when it has one,
    that parser is applied to the text of the file and the argument
    dictionary: an exception it raises ends the loop, and the tracks it
    returns are the ones posted, after which the loop goes on. *)
Theorem filetype_dispatch (args : dict) (settings : value)
    (name filetype : string) (rest : list value) (w : world) :
  count_char "." name = 0 ->
  count_char "." filetype = 0 ->
  (importer ("import_" ++ filetype) = None ->
   playlist_loop importer args settings (VStr (name ++ "." ++ filetype) :: rest) w
   = playlist_loop importer args settings rest
       (put (PLine ("Invalid filetype " ++ dquote ++ "." ++ filetype ++ dquote)) w))
  /\ (forall parse_playlist content,
      importer ("import_" ++ filetype) = Some parse_playlist ->
      fs w !! (name ++ "." ++ filetype) = Some content ->
      (forall e,
         parse_playlist content args = Raise e ->
         playlist_loop importer args settings
           (VStr (name ++ "." ++ filetype) :: rest) w
         = (Raise e, w))
      /\ (forall tracks d id base resp,
          parse_playlist content args = Ok tracks ->
          settings = VDict d ->
          dict_get d "id" = Some id ->
          dict_get args "url" = Some (VStr base) ->
          server w (sent w)
            (Request (base ++ "/client-import/")
               [("playlist_name", VStr name); ("tracks", VStr (json_dumps tracks));
                ("client_id", id)]) = Some resp ->
          playlist_loop importer args settings
            (VStr (name ++ "." ++ filetype) :: rest) w
          = playlist_loop importer args settings rest
              (put (PLine (upload_report (name ++ "." ++ filetype) base resp))
                 (log_request
                    (Request (base ++ "/client-import/")
                       [("playlist_name", VStr name);
                        ("tracks", VStr (json_dumps tracks));
                        ("client_id", id)]) w)))).
Proof.
  intros Hn Hf. split.
  - intros Hnone. cbn [playlist_loop]. unfold bind at 1, playlist_body.
    rewrite (split_on_name_filetype name filetype Hn Hf), Hnone. reflexivity.
  - intros parse_playlist content Hsome Hfile. split.
    + intros e Hparse. cbn [playlist_loop]. apply bind_raise. unfold playlist_body.
      rewrite (split_on_name_filetype name filetype Hn Hf), Hsome.
      now apply (import_and_upload_parser_raises _ _ _ _ _ content).
    + intros tracks d id base resp Hparse -> Hid Hurl Hsrv.
      cbn [playlist_loop]. unfold bind at 1, playlist_body.
      rewrite (split_on_name_filetype name filetype Hn Hf), Hsome.
      now rewrite (import_and_upload_posts _ _ _ _ _ content base tracks id resp w
                     Hfile Hparse Hurl Hid Hsrv).
Qed.

(** C3, as the script has it: a playlist that is parsed and posted is
    reported by one line, which for status 200 holds the response body as the
    id in [base/list/id/] and for any other status holds the reason phrase
    of the response, not its body; whatever the status, the loop goes on with
    the rest of the batch. *)
Theorem upload_reports_reason (args : dict) (d : dict) (parse_playlist : parser)
    (p name filetype content base : string) (tracks id : value)
    (resp : response) (rest : list value) (w : world) :
  split_on "." p = [name; filetype] ->
  importer ("import_" ++ filetype) = Some parse_playlist ->
  fs w !! p = Some content ->
  parse_playlist content args = Ok tracks ->
  dict_get args "url" = Some (VStr base) ->
  dict_get d "id" = Some id ->
  server w (sent w)
    (Request (base ++ "/client-import/")
       [("playlist_name", VStr name); ("tracks", VStr (json_dumps tracks));
        ("client_id", id)]) = Some resp ->
  playlist_loop importer args (VDict d) (VStr p :: rest) w
  = playlist_loop importer args (VDict d) rest
      (put (PLine (upload_report p base resp))
         (log_request
            (Request (base ++ "/client-import/")
               [("playlist_name", VStr name); ("tracks", VStr (json_dumps tracks));
                ("client_id", id)]) w)).
Proof.
  intros Hsplit Himp Hf Hparse Hurl Hid Hsrv.
  cbn [playlist_loop]. unfold bind at 1, playlist_body. rewrite Hsplit, Himp.
  unfold import_and_upload.
  rewrite (bind_ok _ _ _ _ _ (open_r_present _ _ _ Hf)).
  rewrite (bind_ok _ _ _ _ _ (f_read_start _ _ _ Hf)).
  rewrite Hparse.
  rewrite (bind_ok _ _ w w tracks) by reflexivity.
  rewrite (bind_ok _ _ _ _ _ (item_str_get _ _ _ _ Hurl)).
  rewrite (bind_ok _ _ _ _ _ (py_getitem_get _ _ _ _ Hid)).
  rewrite (bind_ok _ _ _ _ _ (requests_post_answer _ _ _ _ Hsrv)).
  unfold upload_report.
  destruct (status_code resp =? 200)%Z; cbn [negb].
  - rewrite (bind_ok _ _ _ _ _ (item_str_get _ _ _ _ Hurl)). reflexivity.
  - reflexivity.
Qed.

Lemma link_account_refused (code base : string) (id : value) (resp : response)
    (w : world) :
  server w (sent w)
    (Request (base ++ "client-link/") [("link", VStr code); ("client", id)])
  = Some resp ->
  status_code resp <> 200%Z ->
  link_account code base id w
  = (Raise (ConnectionError (text resp)),
     log_request
       (Request (base ++ "client-link/") [("link", VStr code); ("client", id)]) w).
Proof.
  intros Hsrv Hst. unfold link_account.
  rewrite (bind_ok _ _ _ _ _ (requests_post_answer _ _ _ _ Hsrv)).
  apply Z.eqb_neq in Hst. now rewrite Hst.
Qed.

Lemma link_account_accepted (code base : string) (id : value) (resp : response)
    (w : world) :
  server w (sent w)
    (Request (base ++ "client-link/") [("link", VStr code); ("client", id)])
  = Some resp ->
  status_code resp = 200%Z ->
  link_account code base id w
  = (Ok tt,
     log_request
       (Request (base ++ "client-link/") [("link", VStr code); ("client", id)]) w).
Proof.
  intros Hsrv Hst. unfold link_account.
  rewrite (bind_ok _ _ _ _ _ (requests_post_answer _ _ _ _ Hsrv)).
  now rewrite Hst.
Qed.

(** The arguments of [link_account] as [main] evaluates them. *)
Lemma link_call (c : cli) (d : dict) (id : value) (w : world) :
  dict_get d "id" = Some id ->
  (let* code := item_str (namespace c) "link" in
   let* base := item_str (namespace c) "url" in
   let* id := py_getitem (VDict d) "id" in
   link_account code base id) w
  = link_account (link c) (url c) id w.
Proof.
  intros Hid.
  rewrite (bind_ok _ _ w w (link c)) by reflexivity.
  rewrite (bind_ok _ _ w w (url c)) by reflexivity.
  now rewrite (bind_ok _ _ _ _ _ (py_getitem_get _ _ _ _ Hid)).
Qed.

Lemma link_given (c : cli) : link c <> EmptyString -> truthy (VStr (link c)) = true.
Proof.
  intros H. cbn [truthy]. destruct (String.eqb (link c) EmptyString) eqn:E; [ | reflexivity ].
  apply String.eqb_eq in E. contradiction.
Qed.

(** C6: when the server answers the link request with a status other than
    200, [link_account] raises [ConnectionError] with the response body as
    its message, and [main] prints the error and exits with status 1 in a
    world that differs from the one after loading only by the link request
    and the printed line: the files are as they were after loading, so no
    [link] is stored, and no import request is sent. *)
Theorem link_failure_exits (c : cli) (w w1 : world) (d : dict) (id : value)
    (resp : response) :
  playlist c <> [] ->
  link c <> EmptyString ->
  main_load (namespace c) (put (PValue (VDict (namespace c))) w) = (Ok (VDict d), w1) ->
  dict_get d "id" = Some id ->
  server w1 (sent w1)
    (Request (url c ++ "client-link/") [("link", VStr (link c)); ("client", id)])
  = Some resp ->
  status_code resp <> 200%Z ->
  link_account (link c) (url c) id w1
  = (Raise (ConnectionError (text resp)),
     log_request
       (Request (url c ++ "client-link/") [("link", VStr (link c)); ("client", id)]) w1)
  /\ main importer c w
     = (Raise (SystemExit 1),
        put (PLine ("Error linking account (" ++ text resp ++ ")."))
          (log_request
             (Request (url c ++ "client-link/")
                [("link", VStr (link c)); ("client", id)]) w1))
  /\ fs (snd (main importer c w)) = fs w1
  /\ exit_status (fst (main importer c w)) = 1%Z.
Proof.
  intros Hpl Hlink Hload Hid Hsrv Hst.
  pose proof (link_account_refused _ _ _ _ _ Hsrv Hst) as Hla.
  assert (main importer c w
          = (Raise (SystemExit 1),
             put (PLine ("Error linking account (" ++ text resp ++ ")."))
               (log_request
                  (Request (url c ++ "client-link/")
                     [("link", VStr (link c)); ("client", id)]) w1))) as Hrun.
  { unfold main. apply bind_raise.
    rewrite (main_settings_start c w Hpl).
    rewrite (bind_ok _ _ _ _ _ Hload).
    apply bind_raise. unfold main_link.
    rewrite (bind_ok _ _ w1 w1 (link c)) by reflexivity.
    rewrite (link_given c Hlink).
    apply bind_raise.
    erewrite try_except_caught;
      [ | rewrite (link_call c d id w1 Hid); exact Hla | reflexivity ].
    reflexivity. }
  split; [exact Hla | ]. split; [exact Hrun | ].
  rewrite Hrun. split; reflexivity.
Qed.

(** C7: when the server answers the link request with status 200, the
    settings get [link] bound to the submitted code, the whole object is
    written to the settings file, and only then does the run enter its upload
    part, in a world where nothing but the link request has been sent. *)
Theorem link_success_persists (c : cli) (w w1 : world) (d : dict) (id : value)
    (resp : response) :
  playlist c <> [] ->
  link c <> EmptyString ->
  main_load (namespace c) (put (PValue (VDict (namespace c))) w) = (Ok (VDict d), w1) ->
  dict_get d "id" = Some id ->
  server w1 (sent w1)
    (Request (url c ++ "client-link/") [("link", VStr (link c)); ("client", id)])
  = Some resp ->
  status_code resp = 200%Z ->
  let settings := VDict (dict_set d "link" (VStr (link c))) in
  let w2 :=
    set_fs (<[settings_file c := json_dumps settings]> (fs w1))
      (put (PLine "Link successful")
         (log_request
            (Request (url c ++ "client-link/")
               [("link", VStr (link c)); ("client", id)]) w1)) in
  dict_get (dict_set d "link" (VStr (link c))) "link" = Some (VStr (link c))
  /\ main_settings c w = (Ok (namespace c, settings), w2)
  /\ fs w2 !! settings_file c = Some (json_dumps settings)
  /\ sent w2 = (sent w1 ++ [Request (url c ++ "client-link/")
                              [("link", VStr (link c)); ("client", id)]])%list
  /\ main importer c w = main_upload importer (namespace c) settings w2.
Proof.
  intros Hpl Hlink Hload Hid Hsrv Hst settings w2.
  pose proof (link_account_accepted _ _ _ _ _ Hsrv Hst) as Hla.
  assert (main_settings c w = (Ok (namespace c, settings), w2)) as Hrun.
  { rewrite (main_settings_start c w Hpl).
    rewrite (bind_ok _ _ _ _ _ Hload).
    erewrite bind_ok; [reflexivity | ].
    unfold main_link.
    rewrite (bind_ok _ _ w1 w1 (link c)) by reflexivity.
    rewrite (link_given c Hlink).
    erewrite bind_ok;
      [ | apply try_except_ok; rewrite (link_call c d id w1 Hid); exact Hla ].
    unfold bind at 1, print.
    erewrite bind_ok by reflexivity.
    erewrite bind_ok by reflexivity.
    erewrite bind_ok by reflexivity.
    erewrite bind_ok by apply save_settings_run.
    reflexivity. }
  split; [apply dict_get_set_eq | ].
  split; [exact Hrun | ].
  split; [apply lookup_insert_eq | ].
  split; [reflexivity | ].
  unfold main. now rewrite (bind_ok _ _ _ _ _ Hrun).
Qed.

(** C8: whenever the run gets past the link step with settings that hold no
    truthy [link], it prints the guidance and exits with status 0 at the
    gate: the world it leaves is the world after the link step plus that one
    line, so nothing is sent and the loop over the playlists is not entered. *)
Theorem unlinked_run_stops (c : cli) (w w2 : world) (args d : dict) :
  main_settings c w = (Ok (args, VDict d), w2) ->
  truthy (default VNone (dict_get d "link")) = false ->
  main importer c w
  = (Raise (SystemExit 0),
     put (PLine ("No account linked. Get a link code from " ++ LINK_CODE_HELP_URL ++
                 " and run " ++ argv0 w2 ++ " -l [code]")) w2)
  /\ sent (snd (main importer c w)) = sent w2
  /\ exit_status (fst (main importer c w)) = 0%Z.
Proof.
  intros Hrun Hlink.
  assert (main importer c w
          = (Raise (SystemExit 0),
             put (PLine ("No account linked. Get a link code from " ++
                         LINK_CODE_HELP_URL ++ " and run " ++ argv0 w2 ++
                         " -l [code]")) w2)) as Hmain.
  { unfold main. rewrite (bind_ok _ _ _ _ _ Hrun).
    unfold main_upload.
    rewrite (bind_ok _ _ w2 w2 (default VNone (dict_get d "link"))) by reflexivity.
    rewrite Hlink. cbn [negb].
    apply bind_raise.
    rewrite (bind_ok _ _ w2 w2 (argv0 w2)) by reflexivity.
    reflexivity. }
  rewrite Hmain. repeat split; reflexivity.
Qed.

Lemma emits_load_settings (P : request -> Prop) (p : string) :
  emits P (load_settings p).
Proof. unfold load_settings, json_loads_m. repeat emits_step. Qed.

Lemma emits_save_settings (P : request -> Prop) (settings : value) (p : string) :
  emits P (save_settings settings p).
Proof. unfold save_settings. repeat emits_step. Qed.

Lemma emits_main_load (P : request -> Prop) (args : dict) :
  emits P (main_load args).
Proof.
  pose proof (emits_load_settings P) as Hl.
  pose proof (emits_save_settings P) as Hs.
  unfold main_load. repeat emits_step.
Qed.

Lemma emits_link_account (c : cli) (id : value) :
  emits (request_of_run c) (link_account (link c) (url c) id).
Proof.
  unfold link_account. apply emits_bind.
  - apply emits_requests_post. left. now exists id.
  - intros resp. repeat emits_step.
Qed.

Lemma emits_main_link (c : cli) (settings : value) :
  emits (request_of_run c) (main_link (namespace c) settings).
Proof.
  pose proof (emits_save_settings (request_of_run c)) as Hs.
  apply (emits_ext _ _
    (if truthy (VStr (link c)) then
       try_except
         (let* id := py_getitem settings "id" in
          link_account (link c) (url c) id)
         (fun e =>
            match e with
            | ConnectionError msg =>
                Some (print ("Error linking account (" ++ msg ++ ").") >>>
                      sys_exit 1)
            | _ => None
            end) >>>
       print "Link successful" >>>
       let* settings := py_setitem settings "link" (VStr (link c)) in
       save_settings settings (settings_file c) >>>
       ret settings
     else ret settings)); [reflexivity | ].
  pose proof (emits_link_account c) as Hl.
  repeat emits_step.
Qed.

Lemma main_settings_args (c : cli) (w w' : world) (args : dict) (settings : value) :
  main_settings c w = (Ok (args, settings), w') -> args = namespace c.
Proof.
  unfold main_settings, parse_args.
  unfold bind at 1, ret at 1. unfold bind at 1, print_value.
  unfold bind at 1.
  destruct (item_list (namespace c) "playlist" _) as [[pl | e] w0]; [ | discriminate ].
  unfold bind at 1.
  destruct (if (length pl =? 0)%nat then _ else _) as [[ [] | e] w1]; [ | discriminate ].
  unfold bind at 1.
  destruct (main_load (namespace c) w1) as [[s1 | e] w2]; [ | discriminate ].
  unfold bind at 1.
  destruct (main_link (namespace c) s1 w2) as [[s2 | e] w3]; [ | discriminate ].
  unfold ret. congruence.
Qed.

Lemma emits_main_settings (c : cli) :
  emits (request_of_run c) (main_settings c).
Proof.
  pose proof (emits_main_load (request_of_run c)) as Hl.
  pose proof (emits_main_link c) as Hk.
  unfold main_settings, parse_args.
  apply (emits_bind_cond _ (fun args => args = namespace c));
    [auto with emits | | intros args -> ].
  { intros w a w' H. unfold ret in H. congruence. }
  repeat emits_step.
Qed.

Lemma emits_import_and_upload (c : cli) (parse_playlist : parser)
    (settings : value) (p name : string) :
  emits (request_of_run c)
    (import_and_upload parse_playlist
       (dict_set (namespace c) "url" (VStr (rstrip "/" (url c)))) settings p name).
Proof.
  unfold import_and_upload.
  apply emits_bind; [auto with emits | intros f ].
  apply emits_bind; [auto with emits | intros [content f'] ].
  apply emits_bind; [ repeat emits_step | intros tracks ].
  apply (emits_bind_cond _ (fun base => base = rstrip "/" (url c)));
    [auto with emits | | intros base -> ].
  { intros w a w' H.
    assert (item_str (dict_set (namespace c) "url" (VStr (rstrip "/" (url c)))) "url" w
            = (Ok (rstrip "/" (url c)), w)) as E by reflexivity.
    rewrite E in H. congruence. }
  apply emits_bind; [auto with emits | intros id ].
  apply emits_bind.
  - apply emits_requests_post. right.
    now exists name, (json_dumps tracks), id.
  - intros resp. repeat emits_step.
Qed.

Lemma emits_playlist_loop (c : cli) (settings : value) (playlists : list value) :
  emits (request_of_run c)
    (playlist_loop importer
       (dict_set (namespace c) "url" (VStr (rstrip "/" (url c)))) settings playlists).
Proof.
  induction playlists as [ | p playlists IH ]; cbn [playlist_loop]; [apply emits_ret | ].
  apply emits_bind; [ | intros _; exact IH ].
  pose proof (emits_import_and_upload c) as Hu.
  unfold playlist_body.
  destruct p; try apply emits_raise.
  destruct (split_on "." _) as [ | name [ | filetype [ | x l ] ] ]; try apply emits_raise.
  destruct (importer _); [apply Hu | apply emits_print ].
Qed.

Lemma emits_main_upload (c : cli) (settings : value) :
  emits (request_of_run c) (main_upload importer (namespace c) settings).
Proof.
  unfold main_upload.
  apply emits_bind; [auto with emits | intros linked ].
  apply emits_bind; [ repeat emits_step | intros _ ].
  apply (emits_bind_cond _ (fun base => base = url c));
    [auto with emits | | intros base -> ].
  { intros w a w' H.
    assert (item_str (namespace c) "url" w = (Ok (url c), w)) as E by reflexivity.
    rewrite E in H. congruence. }
  apply emits_bind; [auto with emits | intros playlists ].
  apply emits_playlist_loop.
Qed.

(** The two shapes of request in a run: every request is either the link
    request, posted to the base URL exactly as given with [client-link/]
    put after it, or an import request, posted to the base URL without its
    trailing slashes with [/client-import/] put after it. *)
Theorem base_url_stripped_for_imports (c : cli) (w : world) :
  exists requests,
    sent (snd (main importer c w)) = (sent w ++ requests)%list
    /\ Forall (request_of_run c) requests.
Proof.
  revert w. change (emits (request_of_run c) (main importer c)).
  unfold main.
  apply (emits_bind_cond _ (fun r => fst r = namespace c)).
  - apply emits_main_settings.
  - intros w [args settings] w' H. exact (main_settings_args c w w' args settings H).
  - intros [args settings] Hargs. cbn [fst] in Hargs. subst args.
    apply emits_main_upload.
Qed.

End Properties.

(** ** The theorems on concrete runs *)

Import Scenario.

(** A settings file holding an id, on the machine of a returning user. *)
Lemma load_settings_stored_id_raises_witness :
  json_loads stored_settings = Some (VDict [("id", VStr "abcdefghij0123456789")])
  /\ load_settings "./settings.txt" (returning accepting)
     = (Raise JSONDecodeError, returning accepting).
Proof.
  split; [reflexivity | ].
  apply (load_settings_stored_id_raises "./settings.txt" stored_settings
           [("id", VStr "abcdefghij0123456789")] (VStr "abcdefghij0123456789"));
    reflexivity.
Defined.

(** The returning user asks for the reset of the settings file. *)
Lemma reset_raises_key_error_witness :
  fst (main importer (command ["a.m3u"] "http://127.0.0.1:8000/" EmptyString) (returning accepting))
  = Raise (KeyError "settings")
  /\ fs (snd (main importer (command ["a.m3u"] "http://127.0.0.1:8000/" EmptyString)
                (returning accepting))) !! "./settings.txt"
     = Some stored_settings.
Proof.
  destruct (reset_raises_key_error importer
              (command ["a.m3u"] "http://127.0.0.1:8000/" EmptyString) (returning accepting)
              stored_settings "y" [])
    as [Hrun Hfs]; try reflexivity; try discriminate.
  split; [now rewrite Hrun | now rewrite Hfs].
Defined.


(** [mix.xyz] has no parser and is skipped; [b.m3u] goes to [import_m3u],
    whose tracks are posted. *)
Lemma filetype_dispatch_witness :
  playlist_loop importer [("url", VStr "http://127.0.0.1:8000")]
    (VDict [("id", VStr "abcdefghijklmnopqrst")])
    [VStr ("mix" ++ "." ++ "xyz"); VStr "b.m3u"] (fresh accepting)
  = playlist_loop importer [("url", VStr "http://127.0.0.1:8000")]
      (VDict [("id", VStr "abcdefghijklmnopqrst")])
      [VStr "b.m3u"]
      (put (PLine ("Invalid filetype " ++ dquote ++ "." ++ "xyz" ++ dquote))
         (fresh accepting))
  /\ playlist_loop importer [("url", VStr "http://127.0.0.1:8000")]
       (VDict [("id", VStr "abcdefghijklmnopqrst")])
       [VStr ("b" ++ "." ++ "m3u")] (fresh accepting)
     = playlist_loop importer [("url", VStr "http://127.0.0.1:8000")]
         (VDict [("id", VStr "abcdefghijklmnopqrst")]) []
         (put (PLine (upload_report ("b" ++ "." ++ "m3u") "http://127.0.0.1:8000"
                        (Response 500 "Internal Server Error" "server error")))
            (log_request
               (Request ("http://127.0.0.1:8000" ++ "/client-import/")
                  [("playlist_name", VStr "b");
                   ("tracks", VStr (json_dumps (VList [VStr "two.mp3"])));
                   ("client_id", VStr "abcdefghijklmnopqrst")])
               (fresh accepting))).
Proof.
  split.
  - exact (proj1 (filetype_dispatch importer [("url", VStr "http://127.0.0.1:8000")]
                    (VDict [("id", VStr "abcdefghijklmnopqrst")])
                    "mix" "xyz" [VStr "b.m3u"] (fresh accepting) eq_refl eq_refl)
             eq_refl).
  - exact (proj2 (proj2 (filetype_dispatch importer
                           [("url", VStr "http://127.0.0.1:8000")]
                           (VDict [("id", VStr "abcdefghijklmnopqrst")])
                           "b" "m3u" [] (fresh accepting) eq_refl eq_refl)
                    (fun content _ => Ok (VList [VStr content])) "two.mp3"
                    eq_refl ltac:(vm_compute; reflexivity))
             (VList [VStr "two.mp3"]) [("id", VStr "abcdefghijklmnopqrst")]
             (VStr "abcdefghijklmnopqrst") "http://127.0.0.1:8000"
             (Response 500 "Internal Server Error" "server error")
             eq_refl eq_refl eq_refl eq_refl eq_refl).
Defined.

(** C9, counterexample to the skip for every unregistered tag: the path
    [./mix.xyz] has the tag [xyz], for which there is no parser, yet the run
    prints no invalid-filetype line and does not go on to [a.m3u]: it ends
    with [ValueError], the link request being the only one sent. *)
Lemma dotted_path_is_not_skipped :
  let run := main importer
               (command ["./mix.xyz"; "a.m3u"] "http://127.0.0.1:8000/" "c0de")
               (fresh accepting) in
  importer "import_xyz" = None
  /\ fst run = Raise ValueError
  /\ stdout (snd run)
     = [PValue (VDict (namespace
                  (command ["./mix.xyz"; "a.m3u"] "http://127.0.0.1:8000/" "c0de")));
        PLine "Link successful"]
  /\ map req_url (sent (snd run)) = ["http://127.0.0.1:8000/client-link/"].
Proof.
  cbv zeta. repeat split; vm_compute; reflexivity.
Qed.

(** The second playlist of the batch is answered with 500 and the body
    [server error]; the first one is still to come. *)
Lemma upload_reports_reason_witness :
  playlist_loop importer [("url", VStr "http://127.0.0.1:8000")]
    (VDict [("id", VStr "abcdefghijklmnopqrst")])
    [VStr "b.m3u"; VStr "a.m3u"] (fresh accepting)
  = playlist_loop importer [("url", VStr "http://127.0.0.1:8000")]
      (VDict [("id", VStr "abcdefghijklmnopqrst")])
      [VStr "a.m3u"]
      (put (PLine "Error adding b.m3u: Internal Server Error")
         (log_request
            (Request "http://127.0.0.1:8000/client-import/"
               [("playlist_name", VStr "b");
                ("tracks", VStr (json_dumps (VList [VStr "two.mp3"])));
                ("client_id", VStr "abcdefghijklmnopqrst")])
            (fresh accepting))).
Proof.
  apply (upload_reports_reason importer [("url", VStr "http://127.0.0.1:8000")]
           [("id", VStr "abcdefghijklmnopqrst")]
           (fun content _ => Ok (VList [VStr content]))
           "b.m3u" "b" "m3u" "two.mp3" "http://127.0.0.1:8000"
           (VList [VStr "two.mp3"]) (VStr "abcdefghijklmnopqrst")
           (Response 500 "Internal Server Error" "server error"));
    reflexivity.
Defined.

(** C3, counterexample to the body being reported: in a run where the import of [b.m3u] is answered
    with status 500 and the body [server error], no printed line holds that
    body; the failure line holds the reason phrase. *)
Lemma upload_failure_body_not_printed :
  let run := main importer (command ["a.m3u"; "b.m3u"] "http://127.0.0.1:8000/" "c0de")
               (fresh accepting) in
  accepting []
    (Request "http://127.0.0.1:8000/client-import/"
       [("playlist_name", VStr "b");
        ("tracks", VStr (json_dumps (VList [VStr "two.mp3"])));
        ("client_id", VStr "abcdefghijklmnopqrst")])
  = Some (Response 500 "Internal Server Error" "server error")
  /\ In (PLine "Error adding b.m3u: Internal Server Error") (stdout (snd run))
  /\ ~ (exists line, In (PLine line) (stdout (snd run))
                     /\ contains "server error" line = true).
Proof.
  cbv zeta. split; [reflexivity | ]. split.
  - vm_compute. tauto.
  - intros [line [Hin Hc]]. vm_compute in Hin.
    repeat (destruct Hin as [Hin | Hin]; [ try discriminate Hin | ]);
      try contradiction;
      injection Hin as <-; vm_compute in Hc; discriminate.
Qed.

(** The server answers the link request with 403 and the body [bad code]. *)
Lemma link_failure_exits_witness :
  let c := command ["a.m3u"; "b.m3u"] "http://127.0.0.1:8000/" "c0de" in
  let w1 := loaded (put (PValue (VDict (namespace c))) (fresh refusing)) in
  let request := Request (url c ++ "client-link/")
                   [("link", VStr (link c)); ("client", VStr "abcdefghijklmnopqrst")] in
  link_account (link c) (url c) (VStr "abcdefghijklmnopqrst") w1
  = (Raise (ConnectionError "bad code"), log_request request w1)
  /\ main importer c (fresh refusing)
     = (Raise (SystemExit 1),
        put (PLine ("Error linking account (" ++ "bad code" ++ ")."))
          (log_request request w1))
  /\ fs (snd (main importer c (fresh refusing))) = fs w1
  /\ exit_status (fst (main importer c (fresh refusing))) = 1%Z.
Proof.
  cbv zeta.
  assert (main_load
            (namespace (command ["a.m3u"; "b.m3u"] "http://127.0.0.1:8000/" "c0de"))
            (put (PValue (VDict (namespace
                    (command ["a.m3u"; "b.m3u"] "http://127.0.0.1:8000/" "c0de"))))
               (fresh refusing))
          = (Ok (VDict [("id", VStr "abcdefghijklmnopqrst")]),
             loaded (put (PValue (VDict (namespace
                       (command ["a.m3u"; "b.m3u"] "http://127.0.0.1:8000/" "c0de"))))
                       (fresh refusing))))
    as Hload by (vm_compute; reflexivity).
  exact (link_failure_exits importer
           (command ["a.m3u"; "b.m3u"] "http://127.0.0.1:8000/" "c0de")
           (fresh refusing) _ [("id", VStr "abcdefghijklmnopqrst")]
           (VStr "abcdefghijklmnopqrst") (Response 403 "Forbidden" "bad code")
           ltac:(discriminate) ltac:(discriminate) Hload eq_refl eq_refl
           ltac:(discriminate)).
Defined.

(** The server accepts the link code [c0de]. *)
Lemma link_success_persists_witness :
  let c := command ["a.m3u"; "b.m3u"] "http://127.0.0.1:8000/" "c0de" in
  let w1 := loaded (put (PValue (VDict (namespace c))) (fresh accepting)) in
  let settings :=
    VDict (dict_set [("id", VStr "abcdefghijklmnopqrst")] "link" (VStr (link c))) in
  let request := Request (url c ++ "client-link/")
                   [("link", VStr (link c)); ("client", VStr "abcdefghijklmnopqrst")] in
  let w2 := set_fs (<[settings_file c := json_dumps settings]> (fs w1))
              (put (PLine "Link successful") (log_request request w1)) in
  dict_get (dict_set [("id", VStr "abcdefghijklmnopqrst")] "link" (VStr (link c))) "link"
  = Some (VStr (link c))
  /\ main_settings c (fresh accepting) = (Ok (namespace c, settings), w2)
  /\ fs w2 !! settings_file c = Some (json_dumps settings)
  /\ sent w2 = (sent w1 ++ [request])%list
  /\ main importer c (fresh accepting) = main_upload importer (namespace c) settings w2.
Proof.
  cbv zeta.
  assert (main_load
            (namespace (command ["a.m3u"; "b.m3u"] "http://127.0.0.1:8000/" "c0de"))
            (put (PValue (VDict (namespace
                    (command ["a.m3u"; "b.m3u"] "http://127.0.0.1:8000/" "c0de"))))
               (fresh accepting))
          = (Ok (VDict [("id", VStr "abcdefghijklmnopqrst")]),
             loaded (put (PValue (VDict (namespace
                       (command ["a.m3u"; "b.m3u"] "http://127.0.0.1:8000/" "c0de"))))
                       (fresh accepting))))
    as Hload by (vm_compute; reflexivity).
  exact (link_success_persists importer
           (command ["a.m3u"; "b.m3u"] "http://127.0.0.1:8000/" "c0de")
           (fresh accepting) _ [("id", VStr "abcdefghijklmnopqrst")]
           (VStr "abcdefghijklmnopqrst") (Response 200 "OK" EmptyString)
           ltac:(discriminate) ltac:(discriminate) Hload eq_refl eq_refl eq_refl).
Defined.

(** A first run without a link code. *)
Lemma unlinked_run_stops_witness :
  let c := command ["a.m3u"; "b.m3u"] "http://127.0.0.1:8000/" EmptyString in
  let w2 := loaded (put (PValue (VDict (namespace c))) (fresh accepting)) in
  main importer c (fresh accepting)
  = (Raise (SystemExit 0),
     put (PLine ("No account linked. Get a link code from " ++ LINK_CODE_HELP_URL ++
                 " and run " ++ argv0 w2 ++ " -l [code]")) w2)
  /\ sent (snd (main importer c (fresh accepting))) = sent w2
  /\ exit_status (fst (main importer c (fresh accepting))) = 0%Z.
Proof.
  cbv zeta.
  assert (main_settings
            (command ["a.m3u"; "b.m3u"] "http://127.0.0.1:8000/" EmptyString)
            (fresh accepting)
          = (Ok (namespace (command ["a.m3u"; "b.m3u"] "http://127.0.0.1:8000/" EmptyString),
                 VDict [("id", VStr "abcdefghijklmnopqrst")]),
             loaded (put (PValue (VDict (namespace
                       (command ["a.m3u"; "b.m3u"] "http://127.0.0.1:8000/" EmptyString))))
                       (fresh accepting))))
    as Hrun by (vm_compute; reflexivity).
  exact (unlinked_run_stops importer
           (command ["a.m3u"; "b.m3u"] "http://127.0.0.1:8000/" EmptyString)
           (fresh accepting) _ _ [("id", VStr "abcdefghijklmnopqrst")] Hrun eq_refl).
Defined.

(** In a run with a base URL that ends in two slashes the link request goes
    to that URL with both slashes still in it, so not every request of the
    run is posted under the stripped base URL. *)
Lemma link_request_keeps_trailing_slashes :
  let base := "http://127.0.0.1:8000//" in
  let run := main importer (command ["a.m3u"] base "c0de") (fresh accepting) in
  map req_url (sent (snd run))
  = ["http://127.0.0.1:8000//client-link/"; "http://127.0.0.1:8000/client-import/"]
  /\ ~ Forall (fun r => req_url r = rstrip "/" base ++ "/client-link/"
                        \/ req_url r = rstrip "/" base ++ "/client-import/")
         (sent (snd run)).
Proof.
  cbv zeta. split; [vm_compute; reflexivity | ].
  intros H. vm_compute in H. inversion H as [ | r l [Hr | Hr] _ ]; discriminate Hr.
Qed.

(** ** Further properties of the script *)

Lemma drawn_length (alphabet : string) (gen : nat -> nat) (pos n : nat) :
  String.length (drawn alphabet gen pos n) = n.
Proof.
  revert pos. induction n as [ | n IH ]; intros pos; [reflexivity | ].
  cbn [drawn String.length]. now rewrite IH.
Qed.

Lemma alphabet_get (i : nat) :
  i < 36 ->
  is_id_char (default "000"%char (String.get i (ascii_lowercase ++ digits))) = true.
Proof.
  intros H. do 36 (destruct i as [ | i ]; [reflexivity | ]). lia.
Qed.

Lemma drawn_id_chars (gen : nat -> nat) (pos n : nat) :
  all_chars is_id_char (drawn (ascii_lowercase ++ digits) gen pos n) = true.
Proof.
  revert pos. induction n as [ | n IH ]; intros pos; [reflexivity | ].
  cbn [drawn all_chars]. rewrite IH, andb_true_r.
  apply alphabet_get.
  change (String.length (ascii_lowercase ++ digits)) with 36.
  apply Nat.mod_upper_bound. discriminate.
Qed.

Lemma random_chars_run (alphabet : string) (n : nat) (w : world) :
  random_chars alphabet n w
  = (Ok (drawn alphabet (rng w) (rng_pos w) n), set_rng_pos (rng_pos w + n) w).
Proof.
  revert w. induction n as [ | n IH ]; intros w.
  - destruct w. cbn. now rewrite Nat.add_0_r.
  - cbn [random_chars drawn].
    rewrite (bind_ok _ _ w (set_rng_pos (S (rng_pos w)) w)
               (default "000"%char
                  (String.get (rng w (rng_pos w) mod String.length alphabet) alphabet)))
      by reflexivity.
    rewrite (bind_ok _ _ _ _ _ (IH _)).
    unfold ret, set_rng_pos. cbn. now rewrite Nat.add_succ_r.
Qed.

Lemma random_client_id_run (w : world) :
  random_client_id w = (Ok (client_id_at w), set_rng_pos (rng_pos w + 20) w).
Proof. apply random_chars_run. Qed.

(** X1: [random_client_id] never raises; it returns twenty characters, each
    a lowercase letter or a digit, and changes nothing in the world but the
    cursor of the generator, which moves by twenty draws. *)
Theorem random_client_id_shape (w : world) :
  random_client_id w = (Ok (client_id_at w), set_rng_pos (rng_pos w + 20) w)
  /\ String.length (client_id_at w) = 20
  /\ all_chars is_id_char (client_id_at w) = true.
Proof.
  split; [apply random_client_id_run | ].
  split; [apply drawn_length | apply drawn_id_chars].
Qed.

(** ** Counting the requests a computation sends *)

Lemma quiet_of_emits {A} (m : M A) :
  emits (fun _ => False) m -> forall w, sent (snd (m w)) = sent w.
Proof.
  intros H w. destruct (H w) as [l [Hl F]].
  destruct l as [ | r l ]; [now rewrite Hl, app_nil_r | ].
  inversion F as [ | ? ? Hr ]. contradiction.
Qed.

Lemma sends_of_quiet {A} (n : nat) (P : request -> Prop) (m : M A) :
  emits (fun _ => False) m -> sends n P m.
Proof.
  intros H w. exists []. rewrite (quiet_of_emits m H w), app_nil_r.
  split; [reflexivity | ]. split; [cbn; lia | constructor].
Qed.

Lemma sends_ext {A} (n : nat) (P : request -> Prop) (m m' : M A) :
  (forall w, m w = m' w) -> sends n P m' -> sends n P m.
Proof. intros Heq H w. rewrite Heq. apply H. Qed.

Lemma sends_bind_cond {A B} (n1 n2 : nat) (P : request -> Prop) (Q : A -> Prop)
    (m : M A) (k : A -> M B) :
  sends n1 P m ->
  (forall w a w', m w = (Ok a, w') -> Q a) ->
  (forall a, Q a -> sends n2 P (k a)) ->
  sends (n1 + n2) P (bind m k).
Proof.
  intros Hm HQ Hk w. unfold bind.
  destruct (Hm w) as [l1 [H1 [L1 F1]]].
  destruct (m w) as [[a | e] w1] eqn:E; cbn [snd] in H1.
  - destruct (Hk a (HQ _ _ _ E) w1) as [l2 [H2 [L2 F2]]].
    exists (l1 ++ l2)%list. rewrite H2, H1, app_assoc.
    split; [reflexivity | ]. split; [rewrite length_app; lia | ].
    apply Forall_app. now split.
  - exists l1. split; [exact H1 | ]. split; [lia | exact F1].
Qed.

Lemma sends_bind {A B} (n1 n2 : nat) (P : request -> Prop) (m : M A) (k : A -> M B) :
  sends n1 P m -> (forall a, sends n2 P (k a)) -> sends (n1 + n2) P (bind m k).
Proof.
  intros Hm Hk. apply (sends_bind_cond n1 n2 P (fun _ => True)); auto.
Qed.

Lemma sends_try_except {A} (n : nat) (P : request -> Prop) (m : M A)
    (handler : exn -> option (M A)) :
  sends n P m ->
  (forall e k, handler e = Some k -> emits (fun _ => False) k) ->
  sends n P (try_except m handler).
Proof.
  intros Hm Hh w. unfold try_except.
  destruct (Hm w) as [l1 [H1 [L1 F1]]].
  destruct (m w) as [[a | e] w1] eqn:E; cbn [snd] in H1.
  - exists l1. now split.
  - destruct (handler e) as [k | ] eqn:Ek.
    + exists l1. rewrite (quiet_of_emits k (Hh e k Ek) w1). now split.
    + exists l1. now split.
Qed.

Lemma sends_requests_post (P : request -> Prop) (u : string)
    (data : list (string * value)) :
  P (Request u data) -> sends 1 P (requests_post u data).
Proof.
  intros HP w. exists [Request u data]. unfold requests_post. cbn zeta.
  split; [now destruct (server w (sent w) (Request u data)) | ].
  split; [cbn; lia | ]. constructor; [exact HP | constructor].
Qed.

Lemma emits_of_sends {A} (n : nat) (P : request -> Prop) (m : M A) :
  sends n P m -> emits P m.
Proof. intros H w. destruct (H w) as [l [Hl [_ F]]]. now exists l. Qed.

#[export] Hint Resolve emits_load_settings emits_save_settings emits_main_load : emits.

(** Closes a goal [sends n P m] for an [m] that sends nothing. *)
Ltac sends_nothing := solve [apply sends_of_quiet; repeat emits_step].

(** ** Trailing characters *)

Lemma rstrip_spec (c : ascii) (s : string) :
  ends_in c (rstrip c s) = false
  /\ exists n, s = rstrip c s ++ copies c n.
Proof.
  induction s as [ | a s [IHe [n IHn]] ]; [split; [reflexivity | now exists 0] | ].
  cbn [rstrip]. destruct (rstrip c s) as [ | b r ] eqn:E.
  - change (EmptyString ++ copies c n) with (copies c n) in IHn.
    destruct (Ascii.eqb a c) eqn:Eac.
    + apply Ascii.eqb_eq in Eac. subst a. split; [reflexivity | ].
      exists (S n). now rewrite IHn.
    + split; [cbn; exact Eac | ]. exists n. now rewrite IHn.
  - split; [exact IHe | ]. exists n. now rewrite IHn at 1.
Qed.

Section MoreProperties.

Context {J : Json}.
Variable importer : string -> option parser.

Lemma load_settings_missing_run (p : string) (w : world) :
  fs w !! p = None ->
  load_settings p w
  = (Ok (VDict [("id", VStr (client_id_at w))]),
     set_rng_pos (rng_pos w + 20) (set_fs (<[p := EmptyString]> (fs w)) w)).
Proof.
  intros Hf. unfold load_settings.
  assert (is_file p w = (Ok false, w)) as Hfile.
  { unfold is_file. rewrite bool_decide_eq_false_2; [reflexivity | ].
    rewrite Hf. intros [x Hx]. discriminate. }
  rewrite (bind_ok _ _ _ _ _ Hfile). cbn [negb].
  rewrite (bind_ok _ _ w (set_fs (<[p := EmptyString]> (fs w)) w) tt) by reflexivity.
  assert (fs (set_fs (<[p := EmptyString]> (fs w)) w) !! p = Some EmptyString) as Hnew
    by apply lookup_insert_eq.
  rewrite (bind_ok _ _ _ _ _ (open_r_present _ _ _ Hnew)).
  rewrite (bind_ok _ _ _ _ _ (f_read_start _ _ _ Hnew)).
  cbn [String.length Nat.ltb Nat.leb].
  rewrite (bind_ok _ _ _ _ _ (random_client_id_run _)).
  reflexivity.
Qed.

Lemma load_settings_empty_run (p : string) (w : world) :
  fs w !! p = Some EmptyString ->
  load_settings p w
  = (Ok (VDict [("id", VStr (client_id_at w))]), set_rng_pos (rng_pos w + 20) w).
Proof.
  intros Hf. unfold load_settings.
  rewrite (bind_ok _ _ _ _ _ (is_file_present _ _ _ Hf)). cbn [negb].
  rewrite (bind_ok _ _ w w tt) by reflexivity.
  rewrite (bind_ok _ _ _ _ _ (open_r_present _ _ _ Hf)).
  rewrite (bind_ok _ _ _ _ _ (f_read_start _ _ _ Hf)).
  cbn [String.length Nat.ltb Nat.leb].
  rewrite (bind_ok _ _ _ _ _ (random_client_id_run _)).
  reflexivity.
Qed.

(** X3: loading an empty settings file returns fresh settings and writes
    nothing: the id is not stored, so loading again returns the id of the
    next twenty draws, not the one returned before. *)
Theorem load_settings_empty_regenerates (p : string) (w : world) :
  fs w !! p = Some EmptyString ->
  load_settings p w
  = (Ok (VDict [("id", VStr (drawn (ascii_lowercase ++ digits) (rng w) (rng_pos w) 20))]),
     set_rng_pos (rng_pos w + 20) w)
  /\ (load_settings p >>> load_settings p) w
     = (Ok (VDict [("id", VStr (drawn (ascii_lowercase ++ digits) (rng w)
                                  (rng_pos w + 20) 20))]),
        set_rng_pos (rng_pos w + 20 + 20) w)
  /\ fs (snd ((load_settings p >>> load_settings p) w)) = fs w.
Proof.
  intros Hf.
  pose proof (load_settings_empty_run p w Hf) as H1.
  assert ((load_settings p >>> load_settings p) w
          = (Ok (VDict [("id", VStr (drawn (ascii_lowercase ++ digits) (rng w)
                                       (rng_pos w + 20) 20))]),
             set_rng_pos (rng_pos w + 20 + 20) w)) as H2.
  { rewrite (bind_ok _ _ _ _ _ H1).
    now rewrite (load_settings_empty_run p (set_rng_pos (rng_pos w + 20) w) Hf). }
  split; [exact H1 | ]. split; [exact H2 | now rewrite H2].
Qed.

(** X5: a second [save_settings] to the same path leaves no trace of the
    first: saving twice ends as the second save alone does; and whenever a
    save returns, the file holds exactly the text of the settings it was
    given. *)
Theorem save_settings_overwrites (first second : value) (p : string) (w : world) :
  (save_settings first p >>> save_settings second p) w = save_settings second p w
  /\ (fst (save_settings second p w) = Ok tt ->
      fs (snd (save_settings second p w)) !! p = Some (json_dumps second)).
Proof.
  split.
  - rewrite (bind_ok _ _ _ _ _ (save_settings_run first p w)).
    rewrite !save_settings_run. unfold set_fs. cbn.
    now rewrite insert_insert_eq.
  - intros _. rewrite save_settings_run. cbn. apply lookup_insert_eq.
Qed.

(** X6: [link_account] makes exactly one request, to the base URL followed
    by [client-link/] with the fields [link] and [client], and changes
    nothing else; it returns normally exactly when the server answers with
    status 200, and a transport fault leaves it with the exception of the
    [requests] library. *)
Theorem link_account_one_request (code base : string) (id : value) (w : world) :
  snd (link_account code base id w)
  = log_request
      (Request (base ++ "client-link/") [("link", VStr code); ("client", id)]) w
  /\ (fst (link_account code base id w) = Ok tt <->
      exists resp,
        server w (sent w)
          (Request (base ++ "client-link/") [("link", VStr code); ("client", id)])
        = Some resp
        /\ status_code resp = 200%Z)
  /\ (server w (sent w)
        (Request (base ++ "client-link/") [("link", VStr code); ("client", id)])
      = None ->
      fst (link_account code base id w) = Raise RequestException).
Proof.
  unfold link_account, bind, requests_post. cbn zeta.
  destruct (server w (sent w) _) as [resp | ] eqn:Hsrv.
  - destruct (status_code resp =? 200)%Z eqn:Hst; cbn.
    + apply Z.eqb_eq in Hst. split; [reflexivity | ]. split; [ | discriminate ].
      split; [ | reflexivity ]. intros _. now exists resp.
    + apply Z.eqb_neq in Hst. split; [reflexivity | ]. split; [ | discriminate ].
      split; [discriminate | ]. intros [resp' [E Hst']]. congruence.
  - cbn. split; [reflexivity | ]. split; [ | reflexivity ].
    split; [discriminate | ]. intros [resp [E _]]. discriminate.
Qed.

Lemma main_without_playlists_run (c : cli) (w : world) :
  playlist c = [] ->
  main importer c w
  = (Raise (SystemExit 0),
     put (PLine "Specify at least one playlist for importing")
       (put (PValue (VDict (namespace c))) w)).
Proof.
  intros Hpl. unfold main. apply bind_raise.
  unfold main_settings, parse_args.
  unfold bind at 1 2 3 4. unfold ret at 1. unfold print_value.
  unfold item_list, item, bind at 1.
  cbn [namespace dict_get String.eqb Ascii.eqb Bool.eqb].
  unfold ret at 1. rewrite Hpl. reflexivity.
Qed.

(** X7: without a playlist on the command line the run prints the argument
    dictionary and the request for a playlist and exits with status 0; the
    settings file is neither read nor created and nothing is sent. *)
Theorem main_without_playlists (c : cli) (w : world) :
  playlist c = [] ->
  main importer c w
  = (Raise (SystemExit 0),
     put (PLine "Specify at least one playlist for importing")
       (put (PValue (VDict (namespace c))) w))
  /\ fs (snd (main importer c w)) = fs w
  /\ sent (snd (main importer c w)) = sent w
  /\ rng_pos (snd (main importer c w)) = rng_pos w
  /\ exit_status (fst (main importer c w)) = 0%Z.
Proof.
  intros Hpl. rewrite (main_without_playlists_run c w Hpl). cbn.
  repeat split; reflexivity.
Qed.

(** What [main_load] does with a settings file that has text in it: the
    load fails, the question is printed and the answer decides. *)
Lemma main_load_nonempty (c : cli) (w : world) (content : string) :
  fs w !! settings_file c = Some content ->
  content <> EmptyString ->
  main_load (namespace c) w
  = match stdin w with
    | [] => (Raise EOFError, put (PLine (reset_prompt c)) w)
    | answer :: rest =>
        if String.eqb (lower answer) "y"
        then (Raise (KeyError "settings"),
              set_stdin rest (put (PLine (reset_prompt c)) w))
        else (Raise (SystemExit 0),
              set_stdin rest (put (PLine (reset_prompt c)) w))
    end.
Proof.
  intros Hf Hne. unfold main_load, try_except.
  rewrite (bind_ok _ _ _ _ (settings_file c)) by reflexivity.
  rewrite (load_settings_nonempty (settings_file c) content w Hf Hne).
  rewrite (bind_ok _ _ _ _ (settings_file c)) by reflexivity.
  rewrite (bind_ok _ _ _ _ (settings_file c)) by reflexivity.
  unfold bind at 1, print. fold (reset_prompt c).
  unfold bind at 1, input. cbn [stdin put].
  destruct (stdin w) as [ | answer rest ]; [reflexivity | ].
  destruct (String.eqb (lower answer) "y"); reflexivity.
Qed.

(** What [main_load] does when the load raises [JSONDecodeError]: the
    question is printed and the answer decides. *)
Lemma main_load_decode_failure (c : cli) (w w1 : world) :
  load_settings (settings_file c) w = (Raise JSONDecodeError, w1) ->
  main_load (namespace c) w
  = match stdin w1 with
    | [] => (Raise EOFError, put (PLine (reset_prompt c)) w1)
    | answer :: rest =>
        if String.eqb (lower answer) "y"
        then (Raise (KeyError "settings"),
              set_stdin rest (put (PLine (reset_prompt c)) w1))
        else (Raise (SystemExit 0),
              set_stdin rest (put (PLine (reset_prompt c)) w1))
    end.
Proof.
  intros Hload. unfold main_load, try_except.
  rewrite (bind_ok _ _ _ _ (settings_file c)) by reflexivity.
  rewrite Hload.
  rewrite (bind_ok _ _ _ _ (settings_file c)) by reflexivity.
  rewrite (bind_ok _ _ _ _ (settings_file c)) by reflexivity.
  unfold bind at 1, print. fold (reset_prompt c).
  unfold bind at 1, input. cbn [stdin put].
  destruct (stdin w1) as [ | answer rest ]; [reflexivity | ].
  destruct (String.eqb (lower answer) "y"); reflexivity.
Qed.

(** X8: when the load of the settings raises [JSONDecodeError] and the
    user answers anything but [y] or [Y], the run exits with status 0: to
    the world the failed load left it has added the question and it has
    consumed that line, and nothing else. *)
Theorem reset_declined_exits (c : cli) (w w1 : world) (answer : string)
    (rest : list string) :
  playlist c <> [] ->
  load_settings (settings_file c) (put (PValue (VDict (namespace c))) w)
  = (Raise JSONDecodeError, w1) ->
  stdin w1 = answer :: rest ->
  lower answer <> "y" ->
  main importer c w
  = (Raise (SystemExit 0), set_stdin rest (put (PLine (reset_prompt c)) w1)).
Proof.
  intros Hpl Hload Hin Hn.
  unfold main. apply bind_raise.
  rewrite (main_settings_start c w Hpl). apply bind_raise.
  rewrite (main_load_decode_failure c _ w1 Hload). rewrite Hin.
  destruct (String.eqb (lower answer) "y") eqn:E; [ | reflexivity ].
  apply String.eqb_eq in E. contradiction.
Qed.

Lemma main_raise_at_load (c : cli) (w w' : world) (e : exn) :
  playlist c <> [] ->
  main_load (namespace c) (put (PValue (VDict (namespace c))) w) = (Raise e, w') ->
  main importer c w = (Raise e, w').
Proof.
  intros Hpl H. unfold main. apply bind_raise.
  rewrite (main_settings_start c w Hpl). now apply bind_raise.
Qed.

(** A run with a settings file that has text in it, in one statement. *)
Lemma nonempty_settings_run (c : cli) (w : world) (content : string) :
  fs w !! settings_file c = Some content ->
  content <> EmptyString ->
  exists e w',
    main importer c w = (Raise e, w')
    /\ sent w' = sent w /\ fs w' = fs w
    /\ (e = SystemExit 0 \/ e = KeyError "settings" \/ e = EOFError).
Proof.
  intros Hf Hne.
  destruct (playlist c) as [ | p ps ] eqn:Hpl.
  - eexists _, _. split; [apply (main_without_playlists_run c w Hpl) | ].
    cbn. auto.
  - assert (playlist c <> []) as Hpl' by (rewrite Hpl; discriminate).
    pose proof (main_load_nonempty c (put (PValue (VDict (namespace c))) w) content Hf Hne)
      as Hload.
    cbn [stdin put] in Hload.
    destruct (stdin w) as [ | answer rest ].
    + eexists _, _. split; [apply (main_raise_at_load c w _ _ Hpl' Hload) | ].
      cbn. auto.
    + destruct (String.eqb (lower answer) "y");
        (eexists _, _; split; [apply (main_raise_at_load c w _ _ Hpl' Hload) | ]);
        cbn; auto.
Qed.

(** X9: once the settings file has text in it, no run gets past the load
    of its settings: it sends no request, changes no file and does not end
    normally. *)
Theorem nonempty_settings_block_run (c : cli) (w : world) (content : string) :
  fs w !! settings_file c = Some content ->
  content <> EmptyString ->
  sent (snd (main importer c w)) = sent w
  /\ fs (snd (main importer c w)) = fs w
  /\ exists e, fst (main importer c w) = Raise e.
Proof.
  intros Hf Hne.
  destruct (nonempty_settings_run c w content Hf Hne) as [e [w' [Hrun [Hs [Hfs _]]]]].
  rewrite Hrun. cbn. split; [exact Hs | ]. split; [exact Hfs | now exists e].
Qed.

Lemma main_load_ok (c : cli) (w w' : world) (settings : value) :
  load_settings (settings_file c) w = (Ok settings, w') ->
  main_load (namespace c) w = (Ok settings, w').
Proof.
  intros H. unfold main_load. apply try_except_ok.
  now rewrite (bind_ok _ _ w w (settings_file c)) by reflexivity.
Qed.

(** A run whose settings loaded: what is left is the link step and the
    upload part, in the world the load left. *)
Lemma main_after_load (c : cli) (w w1 : world) (settings : value) :
  playlist c <> [] ->
  load_settings (settings_file c) (put (PValue (VDict (namespace c))) w)
  = (Ok settings, w1) ->
  main importer c w
  = (let* settings := main_link (namespace c) settings in
     main_upload importer (namespace c) settings) w1.
Proof.
  intros Hpl Hload. unfold main. unfold bind at 1.
  rewrite (main_settings_start c w Hpl).
  unfold bind. rewrite (main_load_ok c _ _ _ Hload).
  destruct (main_link (namespace c) settings w1) as [[s | e] w2]; reflexivity.
Qed.

Lemma main_link_no_code (c : cli) (settings : value) (w : world) :
  link c = EmptyString -> main_link (namespace c) settings w = (Ok settings, w).
Proof.
  intros H. unfold main_link.
  rewrite (bind_ok _ _ w w (link c)) by reflexivity.
  rewrite H. reflexivity.
Qed.

Lemma main_upload_fresh (args : dict) (id : string) (w : world) :
  main_upload importer args (VDict [("id", VStr id)]) w
  = (Raise (SystemExit 0),
     put (PLine ("No account linked. Get a link code from " ++ LINK_CODE_HELP_URL ++
                 " and run " ++ argv0 w ++ " -l [code]")) w).
Proof. reflexivity. Qed.

(** The settings [load_settings] returns, when it returns. *)
Lemma load_settings_ok (p : string) (w w' : world) (settings : value) :
  load_settings p w = (Ok settings, w') ->
  settings = VDict [("id", VStr (client_id_at w))]
  /\ sent w' = sent w
  /\ (forall q, q <> p -> fs w' !! q = fs w !! q).
Proof.
  intros H.
  destruct (fs w !! p) as [content | ] eqn:Hf.
  - destruct content as [ | ch content ].
    + rewrite (load_settings_empty_run p w Hf) in H. injection H as <- <-.
      repeat split; reflexivity.
    + rewrite (load_settings_nonempty p (String ch content) w Hf) in H by discriminate.
      discriminate.
  - rewrite (load_settings_missing_run p w Hf) in H. injection H as <- <-.
    split; [reflexivity | ]. split; [reflexivity | ].
    intros q Hq. cbn. now apply lookup_insert_ne.
Qed.

(** X2: whenever [load_settings] returns, what it returns is settings with
    the single key [id], bound to a fresh client id of twenty lowercase
    letters and digits, and never anything read from the file; the file it
    was given exists then and is empty, twenty draws were made and nothing
    was sent. *)
Theorem load_settings_returns_fresh (p : string) (w w' : world) (settings : value) :
  load_settings p w = (Ok settings, w') ->
  settings = VDict [("id", VStr (client_id_at w))]
  /\ String.length (client_id_at w) = 20
  /\ all_chars is_id_char (client_id_at w) = true
  /\ fs w' !! p = Some EmptyString
  /\ rng_pos w' = rng_pos w + 20
  /\ sent w' = sent w.
Proof.
  intros H.
  split; [exact (proj1 (load_settings_ok p w w' settings H)) | ].
  split; [apply drawn_length | ]. split; [apply drawn_id_chars | ].
  destruct (fs w !! p) as [content | ] eqn:Hf.
  - destruct content as [ | ch content ].
    + rewrite (load_settings_empty_run p w Hf) in H. injection H as _ <-.
      cbn. auto.
    + rewrite (load_settings_nonempty p (String ch content) w Hf) in H by discriminate.
      discriminate.
  - rewrite (load_settings_missing_run p w Hf) in H. injection H as _ <-.
    cbn. split; [apply lookup_insert_eq | auto].
Qed.

(** X10: a run without a link code on its command line never sends a
    request and never ends normally: no settings that [load_settings]
    returns hold a [link], so the gate stops every such run that got that
    far. *)
Theorem no_link_code_sends_nothing (c : cli) (w : world) :
  link c = EmptyString ->
  sent (snd (main importer c w)) = sent w
  /\ exists e, fst (main importer c w) = Raise e.
Proof.
  intros Hlink.
  destruct (playlist c) as [ | p ps ] eqn:Hpl.
  { rewrite (main_without_playlists_run c w Hpl). cbn. eauto. }
  assert (playlist c <> []) as Hpl' by (rewrite Hpl; discriminate).
  destruct (load_settings (settings_file c) (put (PValue (VDict (namespace c))) w))
    as [[settings | e] w1] eqn:Hload.
  - destruct (load_settings_ok _ _ _ _ Hload) as [-> [Hs _]].
    rewrite (main_after_load c w w1 _ Hpl' Hload).
    rewrite (bind_ok _ _ _ _ _ (main_link_no_code c _ w1 Hlink)).
    rewrite main_upload_fresh. cbn. split; [exact Hs | eauto].
  - destruct (fs w !! settings_file c) as [content | ] eqn:Hf.
    + destruct content as [ | ch content ].
      * rewrite (load_settings_empty_run _ (put (PValue (VDict (namespace c))) w) Hf)
          in Hload. discriminate.
      * destruct (nonempty_settings_run c w (String ch content) Hf)
          as [e' [w' [Hrun [Hs _]]]]; [discriminate | ].
        rewrite Hrun. cbn. eauto.
    + rewrite (load_settings_missing_run _ (put (PValue (VDict (namespace c))) w) Hf)
        in Hload. discriminate.
Qed.

(** X13: a playlist whose parser is found but whose file does not exist
    makes the loop raise [FileNotFoundError]: nothing is printed or sent for
    it, and the playlists behind it are not reached. *)
Theorem missing_playlist_aborts (args : dict) (settings : value)
    (parse_playlist : parser) (p name filetype : string) (rest : list value)
    (w : world) :
  split_on "." p = [name; filetype] ->
  importer ("import_" ++ filetype) = Some parse_playlist ->
  fs w !! p = None ->
  playlist_loop importer args settings (VStr p :: rest) w
  = (Raise (FileNotFoundError p), w).
Proof.
  intros Hsplit Himp Hf. cbn [playlist_loop]. apply bind_raise.
  unfold playlist_body. rewrite Hsplit, Himp.
  unfold import_and_upload. apply bind_raise.
  unfold open_r. now rewrite Hf.
Qed.


(** X17: a transport fault on the link request is not the [ConnectionError]
    that [main] handles: the run ends with the exception of the [requests]
    library, without the error line, without [Link successful], and with
    the files as they were after loading. *)
Theorem link_transport_fault_propagates (c : cli) (w w1 : world) (d : dict)
    (id : value) :
  playlist c <> [] ->
  link c <> EmptyString ->
  load_settings (settings_file c) (put (PValue (VDict (namespace c))) w)
  = (Ok (VDict d), w1) ->
  dict_get d "id" = Some id ->
  server w1 (sent w1)
    (Request (url c ++ "client-link/") [("link", VStr (link c)); ("client", id)])
  = None ->
  main importer c w
  = (Raise RequestException,
     log_request
       (Request (url c ++ "client-link/") [("link", VStr (link c)); ("client", id)])
       w1).
Proof.
  intros Hpl Hlink Hload Hid Hsrv.
  rewrite (main_after_load c w w1 _ Hpl Hload).
  apply bind_raise. unfold main_link.
  rewrite (bind_ok _ _ w1 w1 (link c)) by reflexivity.
  rewrite (link_given c Hlink).
  assert (link_account (link c) (url c) id w1
          = (Raise RequestException,
             log_request
               (Request (url c ++ "client-link/")
                  [("link", VStr (link c)); ("client", id)]) w1)) as Hla.
  { unfold link_account. apply bind_raise.
    unfold requests_post. cbn zeta. now rewrite Hsrv. }
  apply bind_raise. unfold try_except.
  rewrite (link_call c d id w1 Hid), Hla. reflexivity.
Qed.

Lemma sends_link_account (c : cli) (id : value) :
  sends 1 (link_request c) (link_account (link c) (url c) id).
Proof.
  unfold link_account. apply (sends_bind 1 0).
  - apply sends_requests_post. now exists id.
  - intros resp. sends_nothing.
Qed.

Lemma sends_main_link (c : cli) (settings : value) :
  sends 1 (link_request c) (main_link (namespace c) settings).
Proof.
  apply (sends_ext _ _ _
    (if truthy (VStr (link c)) then
       try_except
         (let* id := py_getitem settings "id" in
          link_account (link c) (url c) id)
         (fun e =>
            match e with
            | ConnectionError msg =>
                Some (print ("Error linking account (" ++ msg ++ ").") >>>
                      sys_exit 1)
            | _ => None
            end) >>>
       print "Link successful" >>>
       let* settings := py_setitem settings "link" (VStr (link c)) in
       save_settings settings (settings_file c) >>>
       ret settings
     else ret settings)); [reflexivity | ].
  destruct (truthy (VStr (link c))); [ | sends_nothing ].
  apply (sends_bind 1 0).
  - apply sends_try_except.
    + apply (sends_bind 0 1); [sends_nothing | intros id; apply sends_link_account ].
    + intros e k H. destruct e; try discriminate H. injection H as <-.
      repeat emits_step.
  - intros _. sends_nothing.
Qed.

Lemma sends_main_settings (c : cli) :
  sends 1 (link_request c) (main_settings c).
Proof.
  apply (sends_ext _ _ _
    (print_value (VDict (namespace c)) >>>
     let* playlists := item_list (namespace c) "playlist" in
     (if (length playlists =? 0)%nat then
        print "Specify at least one playlist for importing" >>> sys_exit 0
      else ret tt) >>>
     let* settings := main_load (namespace c) in
     let* settings := main_link (namespace c) settings in
     ret (namespace c, settings))); [reflexivity | ].
  apply (sends_bind 0 1); [sends_nothing | intros _ ].
  apply (sends_bind 0 1); [sends_nothing | intros playlists ].
  apply (sends_bind 0 1); [sends_nothing | intros _ ].
  apply (sends_bind 0 1); [sends_nothing | intros settings ].
  apply (sends_bind 1 0); [apply sends_main_link | intros s; sends_nothing ].
Qed.

Lemma sends_import_and_upload (c : cli) (parse_playlist : parser)
    (settings : value) (p name : string) :
  sends 1 (import_request c)
    (import_and_upload parse_playlist
       (dict_set (namespace c) "url" (VStr (rstrip "/" (url c)))) settings p name).
Proof.
  unfold import_and_upload.
  apply (sends_bind 0 1); [sends_nothing | intros f ].
  apply (sends_bind 0 1); [sends_nothing | intros [content f'] ].
  apply (sends_bind 0 1); [sends_nothing | intros tracks ].
  apply (sends_bind_cond 0 1 _ (fun base => base = rstrip "/" (url c)));
    [sends_nothing | | intros base -> ].
  { intros w a w' H.
    assert (item_str (dict_set (namespace c) "url" (VStr (rstrip "/" (url c)))) "url" w
            = (Ok (rstrip "/" (url c)), w)) as E by reflexivity.
    rewrite E in H. congruence. }
  apply (sends_bind 0 1); [sends_nothing | intros id ].
  apply (sends_bind 1 0).
  - apply sends_requests_post. now exists name, (json_dumps tracks), id.
  - intros resp. sends_nothing.
Qed.

Lemma sends_playlist_loop (c : cli) (settings : value) (playlists : list value) :
  sends (length playlists) (import_request c)
    (playlist_loop importer
       (dict_set (namespace c) "url" (VStr (rstrip "/" (url c)))) settings playlists).
Proof.
  induction playlists as [ | p playlists IH ]; cbn [playlist_loop length].
  - sends_nothing.
  - apply (sends_bind 1 (length playlists)); [ | intros _; exact IH ].
    unfold playlist_body.
    destruct p; try sends_nothing.
    destruct (split_on "." _) as [ | name [ | filetype [ | x l ] ] ]; try sends_nothing.
    match goal with
    | |- context [importer ?tag] => destruct (importer tag)
    end; [apply sends_import_and_upload | sends_nothing ].
Qed.

Lemma sends_main_upload (c : cli) (settings : value) :
  sends (length (playlist c)) (import_request c)
    (main_upload importer (namespace c) settings).
Proof.
  apply (sends_ext _ _ _
    (let* linked := py_get settings "link" in
     (if negb (truthy linked) then
        let* prog := sys_argv0 in
        print ("No account linked. Get a link code from " ++ LINK_CODE_HELP_URL ++
               " and run " ++ prog ++ " -l [code]") >>>
        sys_exit 0
      else ret tt) >>>
     playlist_loop importer
       (dict_set (namespace c) "url" (VStr (rstrip "/" (url c)))) settings
       (map VStr (playlist c)))); [reflexivity | ].
  apply (sends_bind 0 (length (playlist c))); [sends_nothing | intros linked ].
  apply (sends_bind 0 (length (playlist c))); [sends_nothing | intros _ ].
  assert (length (map VStr (playlist c)) = length (playlist c)) as E
    by apply length_map.
  rewrite <- E. apply sends_playlist_loop.
Qed.

Lemma main_after_settings (c : cli) (w w1 : world) (settings : value) :
  playlist c <> [] ->
  main_load (namespace c) (put (PValue (VDict (namespace c))) w) = (Ok settings, w1) ->
  main importer c w
  = (let* settings := main_link (namespace c) settings in
     main_upload importer (namespace c) settings) w1.
Proof.
  intros Hpl Hload. unfold main. unfold bind at 1.
  rewrite (main_settings_start c w Hpl).
  unfold bind. rewrite Hload.
  destruct (main_link (namespace c) settings w1) as [[s | e] w2]; reflexivity.
Qed.

(** Whatever the server does, the link step of a run with a link code adds
    to the log one request: the one to the base URL as given, followed by
    [client-link/]. *)
Lemma main_link_sends (c : cli) (d : dict) (id : value) (w1 : world) :
  link c <> EmptyString ->
  dict_get d "id" = Some id ->
  exists r w2,
    main_link (namespace c) (VDict d) w1 = (r, w2)
    /\ sent w2
       = (sent w1 ++ [Request (url c ++ "client-link/")
                        [("link", VStr (link c)); ("client", id)]])%list.
Proof.
  intros Hlink Hid. unfold main_link.
  rewrite (bind_ok _ _ w1 w1 (link c)) by reflexivity.
  rewrite (link_given c Hlink).
  destruct (server w1 (sent w1)
              (Request (url c ++ "client-link/")
                 [("link", VStr (link c)); ("client", id)])) as [resp | ] eqn:Hsrv.
  - destruct (Z.eq_dec (status_code resp) 200%Z) as [Hst | Hst].
    + pose proof (link_account_accepted _ _ _ _ _ Hsrv Hst) as Hla.
      erewrite bind_ok;
        [ | apply try_except_ok; rewrite (link_call c d id w1 Hid); exact Hla ].
      unfold bind at 1, print.
      erewrite bind_ok by reflexivity.
      erewrite bind_ok by reflexivity.
      erewrite bind_ok by reflexivity.
      erewrite bind_ok by apply save_settings_run.
      eexists _, _. split; reflexivity.
    + pose proof (link_account_refused _ _ _ _ _ Hsrv Hst) as Hla.
      erewrite bind_raise; cycle 1.
      { erewrite try_except_caught;
          [ | rewrite (link_call c d id w1 Hid); exact Hla | reflexivity ].
        reflexivity. }
      eexists _, _. split; reflexivity.
  - assert (link_account (link c) (url c) id w1
            = (Raise RequestException,
               log_request
                 (Request (url c ++ "client-link/")
                    [("link", VStr (link c)); ("client", id)]) w1)) as Hla.
    { unfold link_account. apply bind_raise.
      unfold requests_post. cbn zeta. now rewrite Hsrv. }
    erewrite bind_raise; cycle 1.
    { unfold try_except. rewrite (link_call c d id w1 Hid), Hla. reflexivity. }
    eexists _, _. split; reflexivity.
Qed.

(** C10: in every run that reaches the link step with a link code, the first
    request sent is the link request, and its URL is the base URL exactly
    as it was given, trailing slashes or none, with [client-link/] put
    after it; only the import requests behind it go to the base URL without
    its trailing slashes. *)
Theorem link_request_uses_raw_url (c : cli) (w w1 : world) (d : dict) (id : value) :
  playlist c <> [] ->
  link c <> EmptyString ->
  main_load (namespace c) (put (PValue (VDict (namespace c))) w) = (Ok (VDict d), w1) ->
  dict_get d "id" = Some id ->
  exists imports,
    sent (snd (main importer c w))
    = (sent w1 ++ Request (url c ++ "client-link/")
                    [("link", VStr (link c)); ("client", id)] :: imports)%list
    /\ Forall (import_request c) imports.
Proof.
  intros Hpl Hlink Hload Hid.
  destruct (main_link_sends c d id w1 Hlink Hid) as [r [w2 [Hml Hs]]].
  rewrite (main_after_settings c w w1 _ Hpl Hload).
  destruct r as [settings | e].
  - rewrite (bind_ok _ _ _ _ _ Hml).
    destruct (sends_main_upload c settings w2) as [imports [Hi [_ Fi]]].
    exists imports. rewrite Hi, Hs, <- app_assoc. split; [reflexivity | exact Fi].
  - rewrite (bind_raise _ _ _ _ _ Hml). exists []. cbn [snd].
    split; [exact Hs | constructor].
Qed.

(** X12: in every run the link request, if there is one, comes first and
    there is at most one; what follows are import requests, at most one for
    each playlist of the command line. *)
Theorem requests_in_order (c : cli) (w : world) :
  exists links imports,
    sent (snd (main importer c w)) = (sent w ++ links ++ imports)%list
    /\ length links <= 1
    /\ length imports <= length (playlist c)
    /\ Forall (link_request c) links
    /\ Forall (import_request c) imports.
Proof.
  unfold main, bind.
  destruct (sends_main_settings c w) as [links [Hl [Ll Fl]]].
  destruct (main_settings c w) as [[[args settings] | e] w1] eqn:E; cbn [snd] in Hl.
  - rewrite (main_settings_args c w w1 args settings E).
    destruct (sends_main_upload c settings w1) as [imports [Hi [Li Fi]]].
    exists links, imports. rewrite Hi, Hl, app_assoc. auto.
  - exists links, []. rewrite app_nil_r. cbn [snd length].
    split; [exact Hl | ]. split; [exact Ll | ]. split; [lia | ].
    split; [exact Fl | constructor].
Qed.

(** X16: the base URL under which the upload part of a run posts its import
    requests never ends in a slash: each goes to [b/client-import/] for the
    [b] that the base URL of the command line is, up to slashes at its end. *)
Theorem import_base_without_trailing_slash (c : cli) (settings : value) (w : world) :
  exists b n imports,
    url c = b ++ copies "/" n
    /\ ends_in "/" b = false
    /\ sent (snd (main_upload importer (namespace c) settings w))
       = (sent w ++ imports)%list
    /\ Forall (fun r => req_url r = b ++ "/client-import/") imports.
Proof.
  destruct (rstrip_spec "/" (url c)) as [He [n Hn]].
  destruct (sends_main_upload c settings w) as [imports [Hi [_ Fi]]].
  exists (rstrip "/" (url c)), n, imports.
  split; [exact Hn | ]. split; [exact He | ]. split; [exact Hi | ].
  eapply Forall_impl; [exact Fi | ].
  intros r [name [tracks [id ->]]]. reflexivity.
Qed.

Lemma main_link_result (c : cli) (d : dict) (w w' : world) (settings : value) :
  main_link (namespace c) (VDict d) w = (Ok settings, w') ->
  settings = VDict d \/ settings = VDict (dict_set d "link" (VStr (link c))).
Proof.
  intros H. unfold main_link in H.
  rewrite (bind_ok _ _ w w (link c)) in H by reflexivity.
  destruct (truthy (VStr (link c))).
  - unfold bind at 1 in H.
    destruct (try_except _ _ w) as [[ [] | e] w2]; [ | discriminate H ].
    rewrite (bind_ok _ _ w2 (put (PLine "Link successful") w2) tt) in H by reflexivity.
    rewrite (bind_ok _ _ _ _ (link c)) in H by reflexivity.
    rewrite (bind_ok _ _ _ _ (VDict (dict_set d "link" (VStr (link c))))) in H
      by reflexivity.
    rewrite (bind_ok _ _ _ _ (settings_file c)) in H by reflexivity.
    rewrite (bind_ok _ _ _ _ _ (save_settings_run _ _ _)) in H.
    unfold ret in H. injection H as <- _. now right.
  - unfold ret in H. injection H as <- _. now left.
Qed.

Lemma emits_id_link (c : cli) (id : value) :
  emits (carries_id id) (main_link (namespace c) (VDict [("id", id)])).
Proof.
  pose proof (emits_save_settings (carries_id id)) as Hs.
  apply (emits_ext _ _
    (if truthy (VStr (link c)) then
       try_except
         (let* response :=
            requests_post (url c ++ "client-link/")
              [("link", VStr (link c)); ("client", id)] in
          if (status_code response =? 200)%Z then ret tt
          else raise (ConnectionError (text response)))
         (fun e =>
            match e with
            | ConnectionError msg =>
                Some (print ("Error linking account (" ++ msg ++ ").") >>>
                      sys_exit 1)
            | _ => None
            end) >>>
       print "Link successful" >>>
       let* settings := py_setitem (VDict [("id", id)]) "link" (VStr (link c)) in
       save_settings settings (settings_file c) >>>
       ret settings
     else ret (VDict [("id", id)]))); [reflexivity | ].
  destruct (truthy (VStr (link c))); [ | apply emits_ret ].
  apply emits_bind; [ | intros _; repeat emits_step ].
  apply emits_try_except.
  - apply emits_bind; [ | intros resp; repeat emits_step ].
    apply emits_requests_post. left. reflexivity.
  - intros e k H. destruct e; try discriminate H. injection H as <-.
    repeat emits_step.
Qed.

Lemma emits_id_loop (args d : dict) (id : value) (playlists : list value) :
  dict_get d "id" = Some id ->
  emits (carries_id id) (playlist_loop importer args (VDict d) playlists).
Proof.
  intros Hid.
  induction playlists as [ | x playlists IH ]; cbn [playlist_loop];
    [apply emits_ret | ].
  apply emits_bind; [ | intros _; exact IH ].
  unfold playlist_body.
  destruct x; try apply emits_raise.
  destruct (split_on "." _) as [ | name [ | filetype [ | y l ] ] ]; try apply emits_raise.
  match goal with
  | |- context [importer ?tag] => destruct (importer tag) as [parse_playlist | ]
  end; [ | apply emits_print ].
  unfold import_and_upload.
  apply emits_bind; [auto with emits | intros f ].
  apply emits_bind; [auto with emits | intros [content f'] ].
  apply emits_bind; [repeat emits_step | intros tracks ].
  apply emits_bind; [auto with emits | intros base ].
  apply (emits_bind_cond _ (fun x => x = id)); [auto with emits | | intros x -> ].
  { intros w a w' H. rewrite (py_getitem_get d "id" id w Hid) in H. congruence. }
  apply emits_bind; [ | intros resp; repeat emits_step ].
  apply emits_requests_post. right. reflexivity.
Qed.

Lemma emits_id_upload (args d : dict) (id : value) :
  dict_get d "id" = Some id ->
  emits (carries_id id) (main_upload importer args (VDict d)).
Proof.
  intros Hid. pose proof (fun a => emits_id_loop a d id) as Hl.
  unfold main_upload.
  apply emits_bind; [auto with emits | intros linked ].
  apply emits_bind; [repeat emits_step | intros _ ].
  apply emits_bind; [auto with emits | intros base ].
  apply emits_bind; [auto with emits | intros playlists ].
  now apply Hl.
Qed.

(** X15: every request of a run, the link request and the import requests
    alike, names one and the same client: the id that [random_client_id]
    draws when the run loads its settings. *)
Theorem one_client_id_per_run (c : cli) (w : world) :
  exists requests,
    sent (snd (main importer c w)) = (sent w ++ requests)%list
    /\ Forall (carries_id (VStr (client_id_at w))) requests.
Proof.
  assert (forall w', sent w' = sent w ->
            exists requests,
              sent w' = (sent w ++ requests)%list
              /\ Forall (carries_id (VStr (client_id_at w))) requests) as Hnone.
  { intros w' H. exists []. rewrite app_nil_r. split; [exact H | constructor]. }
  destruct (playlist c) as [ | p ps ] eqn:Hpl.
  { rewrite (main_without_playlists_run c w Hpl). now apply Hnone. }
  assert (playlist c <> []) as Hpl' by (rewrite Hpl; discriminate).
  destruct (load_settings (settings_file c) (put (PValue (VDict (namespace c))) w))
    as [[settings | e] w1] eqn:Hload.
  - destruct (load_settings_ok _ _ _ _ Hload) as [-> [Hs _]].
    rewrite (main_after_load c w w1 _ Hpl' Hload).
    change (client_id_at (put (PValue (VDict (namespace c))) w)) with (client_id_at w).
    assert (emits (carries_id (VStr (client_id_at w)))
              (let* settings :=
                 main_link (namespace c) (VDict [("id", VStr (client_id_at w))]) in
               main_upload importer (namespace c) settings)) as Hrun.
    { apply (emits_bind_cond _
               (fun s => exists d, s = VDict d
                                   /\ dict_get d "id" = Some (VStr (client_id_at w)))).
      - apply emits_id_link.
      - intros w0 s w0' H.
        destruct (main_link_result c _ w0 w0' s H) as [-> | ->];
          eexists; (split; [reflexivity | reflexivity]).
      - intros s [d [-> Hid]]. now apply emits_id_upload. }
    destruct (Hrun w1) as [requests [Hr Fr]].
    exists requests. now rewrite Hr, Hs.
  - destruct (fs w !! settings_file c) as [content | ] eqn:Hf.
    + destruct content as [ | ch content ].
      * rewrite (load_settings_empty_run _ (put (PValue (VDict (namespace c))) w) Hf)
          in Hload. discriminate.
      * destruct (nonempty_settings_run c w (String ch content) Hf)
          as [e' [w' [Hrun [Hs _]]]]; [discriminate | ].
        rewrite Hrun. now apply Hnone.
    + rewrite (load_settings_missing_run _ (put (PValue (VDict (namespace c))) w) Hf)
        in Hload. discriminate.
Qed.

End MoreProperties.

(** ** The further properties on concrete runs *)

Lemma load_settings_returns_fresh_witness :
  VDict [("id", VStr "abcdefghijklmnopqrst")]
  = VDict [("id", VStr (client_id_at (fresh accepting)))]
  /\ String.length (client_id_at (fresh accepting)) = 20
  /\ all_chars is_id_char (client_id_at (fresh accepting)) = true
  /\ fs (loaded (fresh accepting)) !! "./settings.txt" = Some EmptyString
  /\ rng_pos (loaded (fresh accepting)) = rng_pos (fresh accepting) + 20
  /\ sent (loaded (fresh accepting)) = sent (fresh accepting).
Proof.
  exact (load_settings_returns_fresh "./settings.txt" (fresh accepting)
           (loaded (fresh accepting)) (VDict [("id", VStr "abcdefghijklmnopqrst")])
           ltac:(vm_compute; reflexivity)).
Defined.

Lemma load_settings_empty_regenerates_witness :
  fst (load_settings "./settings.txt" (emptied accepting))
  = Ok (VDict [("id", VStr "abcdefghijklmnopqrst")])
  /\ fst ((load_settings "./settings.txt" >>> load_settings "./settings.txt")
            (emptied accepting))
     = Ok (VDict [("id", VStr "uvwxyz0123456789abcd")]).
Proof.
  destruct (load_settings_empty_regenerates "./settings.txt" (emptied accepting)
              ltac:(vm_compute; reflexivity)) as [H1 [H2 _]].
  rewrite H1, H2. split; vm_compute; reflexivity.
Defined.

Lemma main_without_playlists_witness :
  exit_status (fst (main importer (command [] "http://127.0.0.1:8000/" "c0de")
                      (fresh accepting))) = 0%Z
  /\ fs (snd (main importer (command [] "http://127.0.0.1:8000/" "c0de")
                (fresh accepting))) = fs (fresh accepting).
Proof.
  destruct (main_without_playlists importer
              (command [] "http://127.0.0.1:8000/" "c0de") (fresh accepting) eq_refl)
    as [_ [Hfs [_ [_ Hexit]]]].
  split; [exact Hexit | exact Hfs].
Defined.

Lemma reset_declined_exits_witness :
  let c := command ["a.m3u"] "http://127.0.0.1:8000/" EmptyString in
  let w := set_stdin ["No"] (returning accepting) in
  main importer c w
  = (Raise (SystemExit 0),
     set_stdin [] (put (PLine (reset_prompt c)) (put (PValue (VDict (namespace c))) w))).
Proof.
  cbv zeta.
  assert (load_settings
            (settings_file (command ["a.m3u"] "http://127.0.0.1:8000/" EmptyString))
            (put (PValue (VDict (namespace
                    (command ["a.m3u"] "http://127.0.0.1:8000/" EmptyString))))
               (set_stdin ["No"] (returning accepting)))
          = (Raise JSONDecodeError,
             put (PValue (VDict (namespace
                    (command ["a.m3u"] "http://127.0.0.1:8000/" EmptyString))))
               (set_stdin ["No"] (returning accepting))))
    as Hload by (vm_compute; reflexivity).
  exact (reset_declined_exits importer
           (command ["a.m3u"] "http://127.0.0.1:8000/" EmptyString)
           (set_stdin ["No"] (returning accepting)) _ "No" []
           ltac:(discriminate) Hload eq_refl ltac:(vm_compute; discriminate)).
Defined.

Lemma nonempty_settings_block_run_witness :
  sent (snd (main importer (command ["a.m3u"; "b.m3u"] "http://127.0.0.1:8000/" "c0de")
               (returning accepting))) = []
  /\ fs (snd (main importer (command ["a.m3u"; "b.m3u"] "http://127.0.0.1:8000/" "c0de")
                (returning accepting))) = fs (returning accepting).
Proof.
  destruct (nonempty_settings_block_run importer
              (command ["a.m3u"; "b.m3u"] "http://127.0.0.1:8000/" "c0de")
              (returning accepting) stored_settings
              ltac:(vm_compute; reflexivity) ltac:(discriminate))
    as [Hs [Hfs _]].
  split; [exact Hs | exact Hfs].
Defined.

Lemma no_link_code_sends_nothing_witness :
  sent (snd (main importer (command ["a.m3u"; "b.m3u"] "http://127.0.0.1:8000/" EmptyString)
               (fresh accepting))) = [].
Proof.
  exact (proj1 (no_link_code_sends_nothing importer
                  (command ["a.m3u"; "b.m3u"] "http://127.0.0.1:8000/" EmptyString)
                  (fresh accepting) eq_refl)).
Defined.

Lemma missing_playlist_aborts_witness :
  playlist_loop importer [("url", VStr "http://127.0.0.1:8000")]
    (VDict [("id", VStr "abcdefghijklmnopqrst")])
    [VStr "c.m3u"; VStr "a.m3u"] (fresh accepting)
  = (Raise (FileNotFoundError "c.m3u"), fresh accepting).
Proof.
  exact (missing_playlist_aborts importer [("url", VStr "http://127.0.0.1:8000")]
           (VDict [("id", VStr "abcdefghijklmnopqrst")])
           (fun content _ => Ok (VList [VStr content])) "c.m3u" "c" "m3u"
           [VStr "a.m3u"] (fresh accepting) eq_refl eq_refl
           ltac:(vm_compute; reflexivity)).
Defined.


Lemma link_transport_fault_propagates_witness :
  let c := command ["a.m3u"] "http://127.0.0.1:8000/" "c0de" in
  let w1 := loaded (put (PValue (VDict (namespace c))) (fresh offline)) in
  main importer c (fresh offline)
  = (Raise RequestException,
     log_request
       (Request (url c ++ "client-link/")
          [("link", VStr (link c)); ("client", VStr "abcdefghijklmnopqrst")]) w1).
Proof.
  cbv zeta.
  assert (load_settings
            (settings_file (command ["a.m3u"] "http://127.0.0.1:8000/" "c0de"))
            (put (PValue (VDict (namespace
                    (command ["a.m3u"] "http://127.0.0.1:8000/" "c0de"))))
               (fresh offline))
          = (Ok (VDict [("id", VStr "abcdefghijklmnopqrst")]),
             loaded (put (PValue (VDict (namespace
                       (command ["a.m3u"] "http://127.0.0.1:8000/" "c0de"))))
                       (fresh offline))))
    as Hload by (vm_compute; reflexivity).
  exact (link_transport_fault_propagates importer
           (command ["a.m3u"] "http://127.0.0.1:8000/" "c0de") (fresh offline) _
           [("id", VStr "abcdefghijklmnopqrst")] (VStr "abcdefghijklmnopqrst")
           ltac:(discriminate) ltac:(discriminate) Hload eq_refl eq_refl).
Defined.

(** A base URL without a trailing slash: the link request goes to a URL in
    which the host and the endpoint run together, and cannot be delivered. *)
Lemma link_request_uses_raw_url_witness :
  let c := command ["a.m3u"] "http://127.0.0.1:8000" "c0de" in
  let w1 := loaded (put (PValue (VDict (namespace c))) (fresh strict)) in
  url c ++ "client-link/" = "http://127.0.0.1:8000client-link/"
  /\ fst (main importer c (fresh strict)) = Raise RequestException
  /\ exists imports,
       sent (snd (main importer c (fresh strict)))
       = (sent w1 ++ Request (url c ++ "client-link/")
                       [("link", VStr (link c));
                        ("client", VStr "abcdefghijklmnopqrst")] :: imports)%list
       /\ Forall (import_request c) imports.
Proof.
  cbv zeta. split; [reflexivity | ]. split; [vm_compute; reflexivity | ].
  assert (main_load
            (namespace (command ["a.m3u"] "http://127.0.0.1:8000" "c0de"))
            (put (PValue (VDict (namespace
                    (command ["a.m3u"] "http://127.0.0.1:8000" "c0de"))))
               (fresh strict))
          = (Ok (VDict [("id", VStr "abcdefghijklmnopqrst")]),
             loaded (put (PValue (VDict (namespace
                       (command ["a.m3u"] "http://127.0.0.1:8000" "c0de"))))
                       (fresh strict))))
    as Hload by (vm_compute; reflexivity).
  exact (link_request_uses_raw_url importer
           (command ["a.m3u"] "http://127.0.0.1:8000" "c0de") (fresh strict) _
           [("id", VStr "abcdefghijklmnopqrst")] (VStr "abcdefghijklmnopqrst")
           ltac:(discriminate) ltac:(discriminate) Hload eq_refl).
Defined.
